(** * The insights middleware of InstantSearch.js

    A shallow embedding of
    [packages/instantsearch.js/src/middlewares/createInsightsMiddleware.ts]
    and the properties its specification states about it.

    The middleware is a closure over a handful of [let] variables that
    talks to three collaborators: the analytics client ([insightsClient]),
    the search session ([helper]) and the hosting instance
    ([instantSearchInstance]).  The closure variables are the record
    [Vars], the collaborators are the record [World], and every call the
    middleware makes on a collaborator is appended to the log [effects] of
    the world, in program order. *)

From stdpp Require Import gmap strings list fin_maps.

Open Scope string_scope.
Open Scope list_scope.

(** ** JavaScript values *)

(** The values that flow through the middleware: tokens, credentials,
    payloads, search parameters.  [JNum] has the integers among the
    numbers; [JObj] stands for any object (always truthy, never
    callable); the only callable value the middleware deals with, the
    analytics client, is kept apart (see [ClientProp]). *)
Inductive jsval :=
| JUndefined
| JNull
| JBool (b : bool)
| JNum (n : Z)
| JStr (s : string)
| JObj (id : nat).

(** [Boolean(v)], the test behind [if (v)], [!v] and [a && b]. *)
Definition truthy (v : jsval) : bool :=
  match v with
  | JUndefined | JNull => false
  | JBool b => b
  | JNum n => negb (n =? 0)%Z
  | JStr s => negb (String.eqb s "")
  | JObj _ => true
  end.

(** [v === s] for a string literal [s]. *)
Definition is_str (v : jsval) (s : string) : bool :=
  match v with
  | JStr s' => String.eqb s' s
  | _ => false
  end.

(** [v === null]. *)
Definition is_null (v : jsval) : bool :=
  match v with
  | JNull => true
  | _ => false
  end.

(** ** Search parameters *)

(** [helper.state] as a plain object: a finite map from parameter names to
    values.  Reading a parameter that is not there gives [undefined]. *)
Abbreviation SearchParameters := (gmap string jsval).

Definition param (k : string) (st : SearchParameters) : jsval :=
  default JUndefined (st !! k).

(** [initialParameters]: the two parameters the middleware takes over. *)
Record PlainSearchParameters := {
  userToken : jsval;
  clickAnalytics : jsval
}.

(** ** Events *)

Record InsightsEvent := {
  insightsMethod : option string;
  payload : jsval;
  widgetType : string;
  eventType : string;
  hits : option (list jsval);
  attribute : option string
}.

(** ** The analytics client *)

Record InsightsInitParams := {
  userHasOptedOut : option bool;
  useCookie : option bool;
  cookieDuration : option Z;
  region : option string
}.

(** The function [setUserTokenToSearch] that [started()] hands to the
    client. *)
Inductive Listener := SetUserTokenToSearch.

(** The calls [insightsClient(method, ...)] the middleware makes. *)
Inductive Call :=
| GetUserToken
| Init (appId apiKey : jsval) (params : option InsightsInitParams)
| AddAlgoliaAgent (agent : string)
| SetUserToken (token : jsval)
| OnUserTokenChange (callback : option Listener) (immediate : option bool)
| SendEvent (method : string) (data : jsval).

(** The two functions of the middleware a client can call back. *)
Inductive Callback :=
| GetUserTokenCallback (_error token : jsval)
| UserTokenListener (token : jsval).

(** An analytics client is any implementation of this interface: a state,
    the pre-load queue it may expose (entries [[method, ...args]], oldest
    first) and its reaction to a call, which is a new state and the
    callbacks it invokes before it returns. *)
Class InsightsClient (C : Type) := {
  client_queue : C -> option (list (list jsval));
  client_call : Call -> C -> C * list Callback
}.

(** What the variable [insightsClient] of the middleware holds once it is
    known to be callable. *)
Inductive Callee := Noop | Client.

(** ** Effects *)

(** An [onEvent] function of the caller. *)
Inductive EventHandler := Handler (id : nat).

(** The option [insightsClient] as the caller wrote it: the client
    function, or some value that is not callable ([null], [undefined],
    ...). *)
Inductive ClientProp :=
| PropValue (v : jsval)
| PropClient.

(** What the middleware does to its collaborators: a call of the
    variable [insightsClient], a callback run on behalf of the client, a
    write to the session without or with notification, a request for a
    search, a warning, an event handed to [onEvent]. *)
Inductive Effect :=
| ECall (callee : Callee) (call : Call)
| ECallback (cb : Callback)
| EOverrideState (st : SearchParameters)
| ESetState (st : SearchParameters)
| EScheduleSearch
| EWarning (message : string)
| EOnEvent (handler : EventHandler) (event : InsightsEvent) (client : ClientProp).

(** What [instantSearchInstance.sendEventToInsights] holds. *)
Inductive Slot := SlotNoop | SlotGateway.

Inductive Error :=
| ConfigError (message : string)
| TypeError (message : string).

(** What the variable [helper] holds once [started()] has assigned it:
    [instantSearchInstance.helper]. *)
Inductive HelperRef := InstanceHelper.

(** ** Warnings and error messages, as the source spells them *)

Definition msg_required_dev : string :=
  "The `insightsClient` option is required if you want userToken to be automatically set in search calls. If you don't want this behaviour, set it to `null`.".

Definition msg_required_prod : string :=
  "The `insightsClient` option is required. To disable, set it to `null`.".

Definition msg_credentials : string :=
  "[insights middleware]: could not extract Algolia credentials from searchClient".

Definition msg_no_user_token : string :=
  "
Cannot send event to Algolia Insights because `userToken` is not set.

See documentation: https://www.algolia.com/doc/guides/building-search-ui/going-further/send-insights-events/js/#setting-the-usertoken
".

Definition msg_no_method : string :=
  "Cannot send event to Algolia Insights because `insightsMethod` option is missing.".

(** ** [createInsightsMiddleware(props)] *)

Record InsightsProps := {
  insightsClient : ClientProp;
  insightsInitParams : option InsightsInitParams;
  onEvent : option EventHandler
}.

(** [props || {}]: without [props] every option is [undefined]. *)
Definition props_or_empty (props : option InsightsProps) : InsightsProps :=
  match props with
  | Some p => p
  | None => {| insightsClient := PropValue JUndefined;
               insightsInitParams := None;
               onEvent := None |}
  end.

Definition prop_truthy (c : ClientProp) : bool :=
  match c with
  | PropValue v => truthy v
  | PropClient => true
  end.

Definition prop_is_null (c : ClientProp) : bool :=
  match c with
  | PropValue v => is_null v
  | PropClient => false
  end.

(** The value of the variable [insightsClient]:
    [_insightsClient === null ? noop : _insightsClient]. *)
Inductive ClientVar :=
| VarNoop
| VarRaw (c : ClientProp).

(** The function the variable [insightsClient] holds, if it holds one. *)
Definition callable_of (c : ClientVar) : option Callee :=
  match c with
  | VarNoop => Some Noop
  | VarRaw PropClient => Some Client
  | VarRaw (PropValue _) => None
  end.

(** What the outer function leaves in scope for the function it
    returns. *)
Record Factory := {
  f_raw : ClientProp;
  f_initParams : option InsightsInitParams;
  f_onEvent : option EventHandler;
  f_hasInsightsClient : bool;
  f_insightsClient : ClientVar
}.

Definition createInsightsMiddleware (DEV : bool) (props : option InsightsProps)
  : Error + Factory :=
  let p := props_or_empty props in
  let _insightsClient := insightsClient p in
  if negb (prop_is_null _insightsClient) && negb (prop_truthy _insightsClient)
  then inl (ConfigError (if DEV then msg_required_dev else msg_required_prod))
  else inr {| f_raw := _insightsClient;
              f_initParams := insightsInitParams p;
              f_onEvent := onEvent p;
              f_hasInsightsClient := prop_truthy _insightsClient;
              f_insightsClient :=
                if prop_is_null _insightsClient then VarNoop
                else VarRaw _insightsClient |}.

(** ** Helpers of [lib/utils] *)

(** Modelled from the spec: [find] of [lib/utils] is not among the sources
    at hand.  It is the search the reconciler uses to "take the most
    recent entry" of the reversed queue: the first item that satisfies the
    predicate, or [undefined] when there is none. *)
Fixpoint find {A : Type} (items : list A) (predicate : A -> bool) : option A :=
  match items with
  | [] => None
  | x :: rest => if predicate x then Some x else find rest predicate
  end.

(** Modelled from the spec: [noop] of [lib/utils] is not among the sources
    at hand.  It is the "no-op client" and the "no-op" dispatch slot: a
    function that takes anything and does nothing. *)
Definition noop {S : Type} (s : S) : S := s.

(** ** The queue scan *)

(** [([method]) => method === 'setUserToken'] *)
Definition is_setUserToken (entry : list jsval) : bool :=
  is_str (nth 0 entry JUndefined) "setUserToken".

(** [[, queuedUserToken] = find(queue.slice().reverse(), ...) || []] *)
Definition scan_queue (queue : list (list jsval)) : jsval :=
  let entry := default [] (find (rev queue) is_setUserToken) in
  nth 1 entry JUndefined.

(** [if (Array.isArray(insightsClient.queue)) { ... }], starting from
    [queuedUserToken = undefined]. *)
Definition read_queue (queue : option (list (list jsval))) : jsval :=
  match queue with
  | Some q => scan_queue q
  | None => JUndefined
  end.

Section Middleware.

(** The analytics client, and the search client with the credential
    extractor [getAppIdAndApiKey] of [lib/utils], which is taken as
    given. *)
Context {C : Type} `{InsightsClient C}.
Context {SearchClient : Type}.
Variable getAppIdAndApiKey : SearchClient -> jsval * jsval.

(** The collaborators: the analytics client, the state of the search
    session [instantSearchInstance.helper] (which is there by the time
    [started()] runs, as the [!] of the source asserts), the slot
    [instantSearchInstance.sendEventToInsights], and the log. *)
Record World := {
  client : C;
  helper_state : SearchParameters;
  sendEventToInsights : Slot;
  effects : list Effect
}.

(** The variables of the closure. *)
Record Vars := {
  queuedUserToken : jsval;
  userTokenBeforeInit : jsval;
  initialParameters : option PlainSearchParameters;
  helper : option HelperRef
}.

(** The constants of the closure: what the hooks see of the scope of
    [createInsightsMiddleware]. *)
Record Settings := {
  _insightsClient : ClientProp;
  hasInsightsClient : bool;
  callee : Callee;
  handler : option EventHandler
}.

Definition log (e : Effect) (w : World) : World :=
  {| client := client w;
     helper_state := helper_state w;
     sendEventToInsights := sendEventToInsights w;
     effects := effects w ++ [e] |}.

Definition with_client (c : C) (w : World) : World :=
  {| client := c;
     helper_state := helper_state w;
     sendEventToInsights := sendEventToInsights w;
     effects := effects w |}.

Definition with_slot (f : Slot) (w : World) : World :=
  {| client := client w;
     helper_state := helper_state w;
     sendEventToInsights := f;
     effects := effects w |}.

Definition with_state (st : SearchParameters) (w : World) : World :=
  {| client := client w;
     helper_state := st;
     sendEventToInsights := sendEventToInsights w;
     effects := effects w |}.

(** [helper.overrideStateWithoutTriggeringChangeEvent(st)] *)
Definition overrideStateWithoutTriggeringChangeEvent
    (st : SearchParameters) (w : World) : World :=
  with_state st (log (EOverrideState st) w).

(** [helper.setState(st)], the write that notifies the subscribers of
    the session. *)
Definition setState (st : SearchParameters) (w : World) : World :=
  with_state st (log (ESetState st) w).

(** [instantSearchInstance.scheduleSearch()] *)
Definition scheduleSearch (w : World) : World := log EScheduleSearch w.

(** [warning(false, message)] *)
Definition warning (message : string) (w : World) : World :=
  log (EWarning message) w.

Definition set_userTokenBeforeInit (t : jsval) (v : Vars) : Vars :=
  {| queuedUserToken := queuedUserToken v;
     userTokenBeforeInit := t;
     initialParameters := initialParameters v;
     helper := helper v |}.

Definition bind_helper (p : PlainSearchParameters) (v : Vars) : Vars :=
  {| queuedUserToken := queuedUserToken v;
     userTokenBeforeInit := userTokenBeforeInit v;
     initialParameters := Some p;
     helper := Some InstanceHelper |}.

(** [setUserTokenToSearch(userToken)] *)
Definition setUserTokenToSearch (token : jsval) (w : World) : World :=
  scheduleSearch
    (overrideStateWithoutTriggeringChangeEvent
       (<["userToken" := token]> (helper_state w)) w).

(** The client calls one of the two functions it was given.  The
    listener is created inside [started()], after [helper] is assigned,
    and [helper] is never cleared: while [helper] is unset no listener
    exists yet, so there is nothing the client could call. *)
Definition deliver (s : Vars * World) (cb : Callback) : Vars * World :=
  let '(v, w) := s in
  match cb with
  | GetUserTokenCallback _ token =>
      (set_userTokenBeforeInit token v, log (ECallback cb) w)
  | UserTokenListener token =>
      match helper v with
      | Some _ => (v, setUserTokenToSearch token (log (ECallback cb) w))
      | None => (v, w)
      end
  end.

(** [insightsClient(method, ...)]: the call, and whatever the client
    calls back before it returns. *)
Definition invoke (i : Settings) (call : Call) (s : Vars * World)
  : Vars * World :=
  let '(v, w) := s in
  let w := log (ECall (callee i) call) w in
  match callee i with
  | Noop => noop (v, w)
  | Client =>
      let '(c, reaction) := client_call call (client w) in
      foldl deliver (v, with_client c w) reaction
  end.

(** The function [createInsightsMiddleware] returns, up to the object
    with the four hooks.  A value of [insightsClient] that passed the
    check of the outer function and yet is no function fails at the first
    call. *)
Definition middleware (DEV : bool) (f : Factory) (searchClient : SearchClient)
    (w : World) : Error + Settings * (Vars * World) :=
  let '(appId, apiKey) := getAppIdAndApiKey searchClient in
  if DEV && negb (truthy appId && truthy apiKey)
  then inl (ConfigError msg_credentials)
  else
    match callable_of (f_insightsClient f) with
    | None => inl (TypeError "insightsClient is not a function")
    | Some target =>
        let i := {| _insightsClient := f_raw f;
                    hasInsightsClient := f_hasInsightsClient f;
                    callee := target;
                    handler := f_onEvent f |} in
        let queue := match target with
                     | Noop => None
                     | Client => client_queue (client w)
                     end in
        let v := {| queuedUserToken := read_queue queue;
                    userTokenBeforeInit := JUndefined;
                    initialParameters := None;
                    helper := None |} in
        let s := invoke i GetUserToken (v, w) in
        let s := invoke i (Init appId apiKey (f_initParams f)) s in
        inr (i, s)
    end.

(** [instantSearchInstance.sendEventToInsights = (event) => { ... }],
    the gateway. *)
Definition gateway (i : Settings) (event : InsightsEvent) (s : Vars * World)
  : Vars * World :=
  let '(v, w) := s in
  match handler i with
  | Some h => (v, log (EOnEvent h event (_insightsClient i)) w)
  | None =>
      match insightsMethod event with
      | Some method =>
          if negb (String.eqb method "")
          then
            let hasUserToken := truthy (param "userToken" (helper_state w)) in
            if hasUserToken
            then invoke i (SendEvent method (payload event)) (v, w)
            else (v, warning msg_no_user_token w)
          else (v, warning msg_no_method w)
      | None => (v, warning msg_no_method w)
      end
  end.

(** A widget calls [instantSearchInstance.sendEventToInsights(event)]. *)
Definition sendEvent (i : Settings) (event : InsightsEvent) (s : Vars * World)
  : Vars * World :=
  match sendEventToInsights (snd s) with
  | SlotNoop => noop s
  | SlotGateway => gateway i event s
  end.

(** [started()]; [anonymousUserToken] is what
    [getInsightsAnonymousUserTokenInternal()] returns when it is
    called. *)
Definition started (i : Settings) (anonymousUserToken : jsval)
    (s : Vars * World) : Vars * World :=
  let '(v, w) := invoke i (AddAlgoliaAgent "insights-middleware") s in
  let v :=
    bind_helper {| userToken := param "userToken" (helper_state w);
                   clickAnalytics := param "clickAnalytics" (helper_state w) |}
                v in
  let w :=
    overrideStateWithoutTriggeringChangeEvent
      (<["clickAnalytics" := JBool true]> (helper_state w)) w in
  let w := scheduleSearch w in
  let w :=
    if hasInsightsClient i && truthy anonymousUserToken
    then setUserTokenToSearch anonymousUserToken w
    else w in
  let s :=
    if truthy (userTokenBeforeInit v)
    then invoke i (SetUserToken (userTokenBeforeInit v)) (v, w)
    else if truthy (queuedUserToken v)
    then invoke i (SetUserToken (queuedUserToken v)) (v, w)
    else (v, w) in
  let '(v, w) :=
    invoke i (OnUserTokenChange (Some SetUserTokenToSearch) (Some true)) s in
  (v, with_slot SlotGateway w).

(** [{...helper.state, ...initialParameters}] *)
Definition restore (p : PlainSearchParameters) (st : SearchParameters)
  : SearchParameters :=
  <["clickAnalytics" := clickAnalytics p]> (<["userToken" := userToken p]> st).

(** [unsubscribe()] *)
Definition unsubscribe (i : Settings) (s : Vars * World) : Vars * World :=
  let '(v, w) := invoke i (OnUserTokenChange None None) s in
  let w := with_slot SlotNoop w in
  match helper v, initialParameters v with
  | Some _, Some p =>
      (v, scheduleSearch (setState (restore p (helper_state w)) w))
  | _, _ => (v, w)
  end.

End Middleware.

Arguments World C : clear implicits.

(** ** Three analytics clients *)

(** A client that accepts every call and never calls back. *)
#[local] Instance silent_client : InsightsClient unit := {
  client_queue := fun _ => None;
  client_call := fun _ c => (c, [])
}.

(** The snippet of search-insights before the library has loaded, as the
    comment in the source describes it: each call [aa(method, ...args)]
    is stored in [aa.queue], and nothing else happens.  Functions and
    option objects among the arguments are recorded as [JObj]. *)
Definition queue_entry (call : Call) : list jsval :=
  match call with
  | GetUserToken => [JStr "getUserToken"; JNull; JObj 0]
  | Init _ _ _ => [JStr "init"; JObj 1]
  | AddAlgoliaAgent agent => [JStr "addAlgoliaAgent"; JStr agent]
  | SetUserToken token => [JStr "setUserToken"; token]
  | OnUserTokenChange (Some _) _ => [JStr "onUserTokenChange"; JObj 2; JObj 3]
  | OnUserTokenChange None _ => [JStr "onUserTokenChange"; JUndefined]
  | SendEvent method data => [JStr method; data]
  end.

#[local] Instance snippet_client : InsightsClient (list (list jsval)) := {
  client_queue := fun q => Some q;
  client_call := fun call q => (q ++ [queue_entry call], [])
}.

(** A loaded client in the manner of search-insights: it keeps the
    current token and at most one listener; [setUserToken] stores the
    token and tells the listener, [onUserTokenChange] installs (or
    removes) the listener and, with [immediate], tells it the current
    token at once; [getUserToken] answers at once. *)
Record Loaded := {
  current_token : jsval;
  listening : bool
}.

#[local] Instance loaded_client : InsightsClient Loaded := {
  client_queue := fun _ => None;
  client_call := fun call c =>
    match call with
    | GetUserToken => (c, [GetUserTokenCallback JNull (current_token c)])
    | SetUserToken token =>
        ({| current_token := token; listening := listening c |},
         if listening c then [UserTokenListener token] else [])
    | OnUserTokenChange (Some _) immediate =>
        ({| current_token := current_token c; listening := true |},
         match immediate with
         | Some true => [UserTokenListener (current_token c)]
         | _ => []
         end)
    | OnUserTokenChange None _ =>
        ({| current_token := current_token c; listening := false |}, [])
    | Init _ _ _ | AddAlgoliaAgent _ | SendEvent _ _ => (c, [])
    end
}.

(** ** Reading the log *)

(** What an operation appended to the log: the effects of [w'] past those
    of [w]. *)
Definition emitted {C : Type} (w w' : World C) : list Effect :=
  drop (length (effects w)) (effects w').

(** The calls made on the variable [insightsClient]. *)
Fixpoint calls (es : list Effect) : list Call :=
  match es with
  | [] => []
  | ECall _ call :: rest => call :: calls rest
  | _ :: rest => calls rest
  end.

(** The calls made on the variable [insightsClient], each with the
    function the variable held. *)
Fixpoint addressed (es : list Effect) : list (Callee * Call) :=
  match es with
  | [] => []
  | ECall target call :: rest => (target, call) :: addressed rest
  | _ :: rest => addressed rest
  end.

(** The tokens handed to the client with [setUserToken]. *)
Fixpoint forwarded (es : list Effect) : list jsval :=
  match es with
  | [] => []
  | ECall _ (SetUserToken token) :: rest => token :: forwarded rest
  | _ :: rest => forwarded rest
  end.

(** The tokens the client told the listener. *)
Fixpoint listened (es : list Effect) : list jsval :=
  match es with
  | [] => []
  | ECallback (UserTokenListener token) :: rest => token :: listened rest
  | _ :: rest => listened rest
  end.

Fixpoint warnings (es : list Effect) : list string :=
  match es with
  | [] => []
  | EWarning message :: rest => message :: warnings rest
  | _ :: rest => warnings rest
  end.

(** The writes that went through [helper.setState], the path that
    notifies. *)
Fixpoint notifications (es : list Effect) : list SearchParameters :=
  match es with
  | [] => []
  | ESetState st :: rest => st :: notifications rest
  | _ :: rest => notifications rest
  end.

(** The writes that went through
    [helper.overrideStateWithoutTriggeringChangeEvent]. *)
Fixpoint overrides (es : list Effect) : list SearchParameters :=
  match es with
  | [] => []
  | EOverrideState st :: rest => st :: overrides rest
  | _ :: rest => overrides rest
  end.

(** The events handed to the [onEvent] of the caller. *)
Fixpoint delegations (es : list Effect)
  : list (EventHandler * InsightsEvent * ClientProp) :=
  match es with
  | [] => []
  | EOnEvent h event c :: rest => (h, event, c) :: delegations rest
  | _ :: rest => delegations rest
  end.

(** The number of [scheduleSearch] requests. *)
Fixpoint searches (es : list Effect) : nat :=
  match es with
  | [] => 0
  | EScheduleSearch :: rest => S (searches rest)
  | _ :: rest => searches rest
  end.

(** Every override is directly followed by one [scheduleSearch], and no
    [scheduleSearch] stands alone. *)
Fixpoint paired (es : list Effect) : bool :=
  match es with
  | [] => true
  | EOverrideState _ :: EScheduleSearch :: rest => paired rest
  | EOverrideState _ :: _ => false
  | EScheduleSearch :: _ => false
  | _ :: rest => paired rest
  end.

(** The session after the listener was told the tokens [ts], one after
    the other. *)
Definition told (ts : list jsval) (st : SearchParameters) : SearchParameters :=
  foldl (fun st token => <["userToken" := token]> st) st ts.

(** ** Callbacks, read off as a function *)

(** The listener tokens among the callbacks of a reaction. *)
Definition tokens (reaction : list Callback) : list jsval :=
  omap (fun cb => match cb with
                  | UserTokenListener token => Some token
                  | GetUserTokenCallback _ _ => None
                  end) reaction.

(** What a run of callbacks does to [userTokenBeforeInit] and to the
    session, and what it logs; [bound] says whether [helper] is set. *)
Fixpoint react (bound : bool) (reaction : list Callback)
    (x : jsval * SearchParameters) : list Effect * (jsval * SearchParameters) :=
  match reaction with
  | [] => ([], x)
  | GetUserTokenCallback e token :: rest =>
      let r := react bound rest (token, snd x) in
      (ECallback (GetUserTokenCallback e token) :: fst r, snd r)
  | UserTokenListener token :: rest =>
      if bound
      then
        let st := <["userToken" := token]> (snd x) in
        let r := react bound rest (fst x, st) in
        (ECallback (UserTokenListener token)
           :: EOverrideState st :: EScheduleSearch :: fst r, snd r)
      else react bound rest x
  end.

Definition is_bound (h : option HelperRef) : bool :=
  match h with
  | Some _ => true
  | None => false
  end.

Section Reactions.

Context {C : Type} `{InsightsClient C}.

(** The callbacks that answer a call of [insightsClient]. *)
Definition reaction (i : Settings) (call : Call) (c : C) : list Callback :=
  match callee i with
  | Noop => []
  | Client => snd (client_call call c)
  end.

(** The client after a call of [insightsClient]. *)
Definition after (i : Settings) (call : Call) (c : C) : C :=
  match callee i with
  | Noop => c
  | Client => fst (client_call call c)
  end.

End Reactions.

(** ** Setting the middleware up *)

Section Setup.

Context {C : Type} `{InsightsClient C}.
Context {SearchClient : Type}.
Variable getAppIdAndApiKey : SearchClient -> jsval * jsval.

(** [createInsightsMiddleware(props)({ instantSearchInstance })] *)
Definition setup (DEV : bool) (props : option InsightsProps)
    (searchClient : SearchClient) (w : World C)
  : Error + Settings * (Vars * World C) :=
  match createInsightsMiddleware DEV props with
  | inl e => inl e
  | inr f => middleware getAppIdAndApiKey DEV f searchClient w
  end.

(** The credentials can be extracted: [appId && apiKey]. *)
Definition has_credentials (searchClient : SearchClient) : bool :=
  let '(appId, apiKey) := getAppIdAndApiKey searchClient in
  truthy appId && truthy apiKey.

End Setup.

(** The variable [insightsClient] holds a function. *)
Definition callable (f : Factory) : bool :=
  bool_decide (is_Some (callable_of (f_insightsClient f))).

(** ** What the specification says of the token *)

(** The resolution order in the words of the specification:
    [tokenBeforeInit] if present, else [queuedToken] if present, else the
    anonymous token if an analytics client is present, else the token the
    session already has. *)
Definition spec_resolved_token (hasClient : bool)
    (tokenBeforeInit queuedToken anonymousToken existing : jsval) : jsval :=
  if truthy tokenBeforeInit then tokenBeforeInit
  else if truthy queuedToken then queuedToken
  else if hasClient && truthy anonymousToken then anonymousToken
  else existing.

(** ** Two kinds of client *)

Section Kinds.

Context {C : Type} `{InsightsClient C}.

(** The client never tells the listener anything before a call
    returns. *)
Definition quiet (i : Settings) : Prop :=
  forall call c, tokens (reaction i call c) = [].

(** The client keeps a current token, [setUserToken] makes its argument
    the current token, and registering a listener with [immediate]
    tells it the current token, last of all. *)
Definition immediate_client (i : Settings) (current : C -> jsval) : Prop :=
  (forall c l,
      last (tokens (reaction i (OnUserTokenChange (Some l) (Some true)) c))
      = Some (current c))
  /\ (forall c token, current (after i (SetUserToken token) c) = token).

End Kinds.

(** ** The calls of [started()] and [unsubscribe()] *)

(** [insightsClient('addAlgoliaAgent', 'insights-middleware')] *)
Definition agent : Call := AddAlgoliaAgent "insights-middleware".

(** [insightsClient('onUserTokenChange', setUserTokenToSearch,
    { immediate: true })] *)
Definition register : Call :=
  OnUserTokenChange (Some SetUserTokenToSearch) (Some true).

(** [insightsClient('onUserTokenChange', undefined)] *)
Definition unregister : Call := OnUserTokenChange None None.

(** The token [started()] hands to [setUserToken], if any:
    [if (userTokenBeforeInit) ... else if (queuedUserToken) ...]. *)
Definition to_forward (tokenBeforeInit queued : jsval) : option jsval :=
  if truthy tokenBeforeInit then Some tokenBeforeInit
  else if truthy queued then Some queued
  else None.

(** ** Sample inputs *)

(** A search client given by the credentials it holds. *)
Definition credentials_of (searchClient : jsval * jsval) : jsval * jsval :=
  searchClient.

Definition with_credentials : jsval * jsval := (JStr "app", JStr "key").

Definition without_credentials : jsval * jsval := (JUndefined, JUndefined).

Definition props_of (c : ClientProp) : option InsightsProps :=
  Some {| insightsClient := c; insightsInitParams := None; onEvent := None |}.

(** The factory [createInsightsMiddleware({ insightsClient })] returns for
    a client function. *)
Definition client_factory : Factory :=
  {| f_raw := PropClient;
     f_initParams := None;
     f_onEvent := None;
     f_hasInsightsClient := true;
     f_insightsClient := VarRaw PropClient |}.

(** The factory [createInsightsMiddleware({ insightsClient: null })]
    returns. *)
Definition null_factory : Factory :=
  {| f_raw := PropValue JNull;
     f_initParams := None;
     f_onEvent := None;
     f_hasInsightsClient := false;
     f_insightsClient := VarNoop |}.

(** The session [{ userToken: 'u0', clickAnalytics: false }]. *)
Definition session_u0 : SearchParameters :=
  <["userToken" := JStr "u0"]> (<["clickAnalytics" := JBool false]> ∅).

Definition world_of {C : Type} (c : C) (st : SearchParameters) : World C :=
  {| client := c;
     helper_state := st;
     sendEventToInsights := SlotNoop;
     effects := [] |}.

(** The constants of a middleware on an analytics client, of one in the
    disabled mode, and of one with an [onEvent] handler. *)
Definition client_settings : Settings :=
  {| _insightsClient := PropClient;
     hasInsightsClient := true;
     callee := Client;
     handler := None |}.

Definition null_settings : Settings :=
  {| _insightsClient := PropValue JNull;
     hasInsightsClient := false;
     callee := Noop;
     handler := None |}.

Definition handler_settings : Settings :=
  {| _insightsClient := PropClient;
     hasInsightsClient := true;
     callee := Client;
     handler := Some (Handler 0) |}.

(** The variables of a middleware whose [started()] has not run. *)
Definition fresh_vars (queued tokenBeforeInit : jsval) : Vars :=
  {| queuedUserToken := queued;
     userTokenBeforeInit := tokenBeforeInit;
     initialParameters := None;
     helper := None |}.

(** [{ insightsMethod: 'clickedObjectIDs', payload: {...},
    widgetType: 'hits', eventType: 'click' }] *)
Definition click_event : InsightsEvent :=
  {| insightsMethod := Some "clickedObjectIDs";
     payload := JObj 7;
     widgetType := "hits";
     eventType := "click";
     hits := None;
     attribute := None |}.

(** [{ widgetType: 'hits', eventType: 'click', payload: {} }] *)
Definition bare_event : InsightsEvent :=
  {| insightsMethod := None;
     payload := JObj 8;
     widgetType := "hits";
     eventType := "click";
     hits := None;
     attribute := None |}.

(** A loaded client whose current token is [token]. *)
Definition loaded_with (token : jsval) : Loaded :=
  {| current_token := token; listening := false |}.

(** The queue [[['setUserToken','a'], ['other'], ['setUserToken','b']]]. *)
Definition queue_a_b : list (list jsval) :=
  [[JStr "setUserToken"; JStr "a"]; [JStr "other"];
   [JStr "setUserToken"; JStr "b"]].

(** ** The hooks, and what can happen to a middleware *)

(** What the hosting instance, the widgets and the client do with a
    middleware once it is set up: the four hooks, an event passed to
    [instantSearchInstance.sendEventToInsights], and a callback the
    client runs later, outside any call. *)
Inductive Step :=
| HookStarted (anonymousUserToken : jsval)
| HookUnsubscribe
| HookSubscribe
| HookOnStateChange
| WidgetEvent (event : InsightsEvent)
| ClientCallback (cb : Callback).

Definition is_started (st : Step) : bool :=
  match st with
  | HookStarted _ => true
  | _ => false
  end.

Definition is_unsubscribe (st : Step) : bool :=
  match st with
  | HookUnsubscribe => true
  | _ => false
  end.

(** The number of [unsubscribe()] among the steps that come with
    [helper] set: [bound] says whether it is set at the start, and every
    [started()] sets it. *)
Fixpoint restores (bound : bool) (steps : list Step) : nat :=
  match steps with
  | [] => 0
  | HookStarted _ :: rest => restores true rest
  | HookUnsubscribe :: rest => (if bound then 1 else 0) + restores bound rest
  | _ :: rest => restores bound rest
  end.

Section Hooks.

Context {C : Type} `{InsightsClient C}.

(** [onStateChange() {}] *)
Definition onStateChange (s : Vars * World C) : Vars * World C := s.

(** [subscribe() {}] *)
Definition subscribe (s : Vars * World C) : Vars * World C := s.

Definition step (i : Settings) (st : Step) (s : Vars * World C)
  : Vars * World C :=
  match st with
  | HookStarted anonymousUserToken => started i anonymousUserToken s
  | HookUnsubscribe => unsubscribe i s
  | HookSubscribe => subscribe s
  | HookOnStateChange => onStateChange s
  | WidgetEvent event => sendEvent i event s
  | ClientCallback cb => deliver s cb
  end.

Definition run (i : Settings) (steps : list Step) (s : Vars * World C)
  : Vars * World C :=
  foldl (fun s st => step i st s) s steps.

(** [helper] and [initialParameters] are set together, and the gateway
    is installed only where [helper] is set. *)
Definition coherent (s : Vars * World C) : Prop :=
  is_bound (helper (fst s))
  = match initialParameters (fst s) with Some _ => true | None => false end
  /\ (sendEventToInsights (snd s) = SlotGateway ->
      is_bound (helper (fst s)) = true).

(** From [s] to [s'] nothing has changed but [userTokenBeforeInit], the
    client, the token of the session, and the log, which has grown
    without a [setState]. *)
Definition same_but_token (s s' : Vars * World C) : Prop :=
  queuedUserToken (fst s') = queuedUserToken (fst s)
  /\ helper (fst s') = helper (fst s)
  /\ initialParameters (fst s') = initialParameters (fst s)
  /\ sendEventToInsights (snd s') = sendEventToInsights (snd s)
  /\ (exists ts, helper_state (snd s') = told ts (helper_state (snd s)))
  /\ (exists es, effects (snd s') = effects (snd s) ++ es
                 /\ notifications es = []).

End Hooks.

(** * Properties *)

(** ** The log readers on concatenations *)

Lemma paired_app es1 es2 :
  paired es1 = true -> paired es2 = true -> paired (es1 ++ es2) = true.
Proof.
  revert es2. induction es1 as [es1 IH] using (induction_ltof1 _ (@length Effect)).
  unfold ltof in IH. intros es2 H1 H2.
  destruct es1 as [|e es1]; [exact H2|].
  destruct e; simpl in *; try (apply IH; [lia | assumption | assumption]).
  - destruct es1 as [|e' es1]; [discriminate|].
    destruct e'; try discriminate. simpl.
    apply IH; [simpl; lia | assumption | assumption].
  - discriminate.
Qed.

Ltac reader_app :=
  let es1 := fresh "es" in
  let e := fresh "e" in
  let IH := fresh "IH" in
  intros es1; induction es1 as [|e es1 IH]; intros; simpl; [done|];
  repeat case_match; simpl; by rewrite ?IH.

Lemma calls_app : forall es1 es2, calls (es1 ++ es2) = calls es1 ++ calls es2.
Proof. reader_app. Qed.

Lemma forwarded_app :
  forall es1 es2, forwarded (es1 ++ es2) = forwarded es1 ++ forwarded es2.
Proof. reader_app. Qed.

Lemma listened_app :
  forall es1 es2, listened (es1 ++ es2) = listened es1 ++ listened es2.
Proof. reader_app. Qed.

Lemma warnings_app :
  forall es1 es2, warnings (es1 ++ es2) = warnings es1 ++ warnings es2.
Proof. reader_app. Qed.

Lemma notifications_app :
  forall es1 es2,
    notifications (es1 ++ es2) = notifications es1 ++ notifications es2.
Proof. reader_app. Qed.

Lemma overrides_app :
  forall es1 es2, overrides (es1 ++ es2) = overrides es1 ++ overrides es2.
Proof. reader_app. Qed.

Lemma delegations_app :
  forall es1 es2, delegations (es1 ++ es2) = delegations es1 ++ delegations es2.
Proof. reader_app. Qed.

Lemma searches_app :
  forall es1 es2, searches (es1 ++ es2) = searches es1 + searches es2.
Proof. reader_app. Qed.

Create Rewrite HintDb readers.

#[export] Hint Rewrite calls_app forwarded_app listened_app warnings_app
  notifications_app overrides_app delegations_app searches_app : readers.

Lemma paired_call c call es : paired (ECall c call :: es) = paired es.
Proof. done. Qed.

Lemma last_chain {A} (l l1 l2 : list A) a b c :
  last (a :: l1) = Some b -> last (b :: l2) = Some c ->
  last (l ++ a :: l1 ++ l2) = Some c.
Proof.
  intros H1 H2. rewrite last_app, app_comm_cons, last_app.
  rewrite last_cons in H2. rewrite H1.
  destruct (last l2); by simplify_eq.
Qed.

(** ** Callbacks, calls and hooks in closed form *)

Section Facts.

Context {C : Type} `{InsightsClient C}.

Implicit Types (v : Vars) (w : World C) (i : Settings) (es : list Effect).

Lemma emitted_app w w' es :
  effects w' = effects w ++ es -> emitted w w' = es.
Proof. intros E. unfold emitted. by rewrite E, drop_app_length. Qed.

Lemma emitted_log w e : emitted w (log e w) = [e].
Proof. by apply emitted_app. Qed.

(** When [w'] continues the log of [w], [emitted w w'] is what it
    added. *)
Lemma emitted_suffix w w' es :
  effects w' = effects w ++ es -> effects w' = effects w ++ emitted w w'.
Proof. intros E. by rewrite (emitted_app _ _ _ E). Qed.

Lemma react_calls b r x : calls (fst (react b r x)) = [].
Proof.
  revert x. induction r as [|[e t|t] r IH]; intros x; simpl; auto.
  destruct b; simpl; auto.
Qed.

Lemma react_forwarded b r x : forwarded (fst (react b r x)) = [].
Proof.
  revert x. induction r as [|[e t|t] r IH]; intros x; simpl; auto.
  destruct b; simpl; auto.
Qed.

Lemma react_warnings b r x : warnings (fst (react b r x)) = [].
Proof.
  revert x. induction r as [|[e t|t] r IH]; intros x; simpl; auto.
  destruct b; simpl; auto.
Qed.

Lemma react_notifications b r x : notifications (fst (react b r x)) = [].
Proof.
  revert x. induction r as [|[e t|t] r IH]; intros x; simpl; auto.
  destruct b; simpl; auto.
Qed.

Lemma react_delegations b r x : delegations (fst (react b r x)) = [].
Proof.
  revert x. induction r as [|[e t|t] r IH]; intros x; simpl; auto.
  destruct b; simpl; auto.
Qed.

Lemma react_paired b r x : paired (fst (react b r x)) = true.
Proof.
  revert x. induction r as [|[e t|t] r IH]; intros x; simpl; auto.
  destruct b; simpl; auto.
Qed.

Lemma react_listened b r x :
  listened (fst (react b r x)) = if b then tokens r else [].
Proof.
  revert x. induction r as [|[e t|t] r IH]; intros x; simpl.
  - by destruct b.
  - apply IH.
  - destruct b; simpl; [f_equal|]; apply IH.
Qed.

Lemma react_state b r x :
  snd (snd (react b r x)) = told (if b then tokens r else []) (snd x).
Proof.
  revert x. induction r as [|[e t|t] r IH]; intros x; simpl.
  - by destruct b.
  - by rewrite IH.
  - destruct b; simpl; by rewrite IH.
Qed.

Lemma react_told b r x :
  snd (snd (react b r x)) = told (listened (fst (react b r x))) (snd x).
Proof. by rewrite react_state, react_listened. Qed.

Lemma react_searches b r x :
  searches (fst (react b r x)) = length (if b then tokens r else []).
Proof.
  revert x. induction r as [|[e t|t] r IH]; intros x; simpl.
  - by destruct b.
  - apply IH.
  - destruct b; simpl; by rewrite IH.
Qed.

Lemma react_searches_listened b r x :
  searches (fst (react b r x)) = length (listened (fst (react b r x))).
Proof. by rewrite react_searches, react_listened. Qed.

Lemma react_overrides b r x :
  length (overrides (fst (react b r x))) = length (if b then tokens r else []).
Proof.
  revert x. induction r as [|[e t|t] r IH]; intros x; simpl.
  - by destruct b.
  - apply IH.
  - destruct b; simpl; by rewrite IH.
Qed.

Lemma react_unbound r x :
  listened (fst (react false r x)) = []
  /\ overrides (fst (react false r x)) = []
  /\ searches (fst (react false r x)) = 0
  /\ snd (snd (react false r x)) = snd x.
Proof.
  repeat split.
  - apply react_listened.
  - apply length_zero_iff_nil. apply react_overrides.
  - apply react_searches.
  - apply react_state.
Qed.

Lemma react_last_override b r x :
  last (snd x :: overrides (fst (react b r x))) = Some (snd (snd (react b r x))).
Proof.
  revert x. induction r as [|[e t|t] r IH]; intros [u st]; simpl.
  - done.
  - apply (IH (t, st)).
  - destruct b; simpl.
    + specialize (IH (u, <["userToken" := t]> st)). simpl in IH. exact IH.
    + apply (IH (u, st)).
Qed.

Lemma told_other ts (st : SearchParameters) k :
  k ≠ "userToken" -> told ts st !! k = st !! k.
Proof.
  intros Hk. revert st. induction ts as [|t ts IH]; intros st; simpl; [done|].
  rewrite IH. by apply lookup_insert_ne.
Qed.

Lemma told_clickAnalytics ts (st : SearchParameters) :
  told ts st !! "clickAnalytics" = st !! "clickAnalytics".
Proof. by apply told_other. Qed.

Lemma told_app ts1 ts2 (st : SearchParameters) :
  told (ts1 ++ ts2) st = told ts2 (told ts1 st).
Proof. unfold told. apply foldl_app. Qed.

(** Only the last token told stays. *)
Lemma told_eq ts (st : SearchParameters) :
  told ts st = match last ts with
               | Some t => <["userToken" := t]> st
               | None => st
               end.
Proof.
  revert st. induction ts as [|t ts IH]; intros st; simpl; [done|].
  rewrite IH. destruct ts as [|t' ts]; simpl; [done|].
  change (last (t :: t' :: ts)) with (last (t' :: ts)).
  destruct (last (t' :: ts)) eqn:E.
  - apply insert_insert_eq.
  - by apply last_None in E.
Qed.

Lemma param_insert_eq k val (st : SearchParameters) :
  param k (<[k := val]> st) = val.
Proof. unfold param. by rewrite lookup_insert_eq. Qed.

Lemma param_insert_ne k k' val (st : SearchParameters) :
  k ≠ k' -> param k' (<[k := val]> st) = param k' st.
Proof. intros Hk. unfold param. by rewrite lookup_insert_ne. Qed.

(** A run of callbacks, in closed form. *)
Lemma foldl_deliver r v w :
  foldl deliver (v, w) r =
  let x := react (is_bound (helper v)) r (userTokenBeforeInit v, helper_state w) in
  (set_userTokenBeforeInit (fst (snd x)) v,
   {| client := client w;
      helper_state := snd (snd x);
      sendEventToInsights := sendEventToInsights w;
      effects := effects w ++ fst x |}).
Proof.
  revert v w. induction r as [|[e t|t] r IH]; intros v w; simpl.
  - destruct v, w; simpl. by rewrite app_nil_r.
  - rewrite IH. simpl. destruct v, w; simpl. by rewrite <- app_assoc.
  - destruct (helper v) eqn:E; simpl.
    + rewrite IH. simpl. rewrite E. simpl.
      destruct v, w; simpl. by rewrite <- !app_assoc.
    + rewrite IH. by rewrite E.
Qed.

(** Callbacks leave [helper] and the snapshot alone, and touch no
    parameter of the session but [userToken]. *)
Lemma foldl_deliver_keeps (s : Vars * World C) later :
  helper (fst (foldl deliver s later)) = helper (fst s)
  /\ initialParameters (fst (foldl deliver s later)) = initialParameters (fst s)
  /\ exists ts,
       helper_state (snd (foldl deliver s later)) = told ts (helper_state (snd s)).
Proof.
  destruct s as [v w]. rewrite foldl_deliver. cbn [fst snd helper_state].
  split; [done|]. split; [done|]. rewrite react_told. cbn [snd]. eauto.
Qed.

(** A call of [insightsClient], in closed form. *)
Lemma invoke_eq i call v w :
  invoke i call (v, w) =
  let x := react (is_bound (helper v)) (reaction i call (client w))
                 (userTokenBeforeInit v, helper_state w) in
  (set_userTokenBeforeInit (fst (snd x)) v,
   {| client := after i call (client w);
      helper_state := snd (snd x);
      sendEventToInsights := sendEventToInsights w;
      effects := effects w ++ ECall (callee i) call :: fst x |}).
Proof.
  unfold invoke, reaction, after. destruct (callee i); simpl.
  - unfold noop, log. destruct v, w; reflexivity.
  - destruct (client_call call (client w)) as [c r] eqn:E. simpl.
    rewrite foldl_deliver. simpl. by rewrite <- app_assoc.
Qed.

(** A call that goes to [noop] is logged and that is all. *)
Lemma invoke_noop i call (s : Vars * World C) :
  callee i = Noop -> invoke i call s = (fst s, log (ECall Noop call) (snd s)).
Proof. intros Hi. destruct s as [v w]. unfold invoke. by rewrite Hi. Qed.

Lemma invoke_emitted i call v w :
  exists rest,
    emitted w (snd (invoke i call (v, w))) = ECall (callee i) call :: rest
    /\ calls rest = [] /\ warnings rest = [] /\ delegations rest = []
    /\ notifications rest = [].
Proof.
  rewrite invoke_eq. eexists. split.
  - apply emitted_app. reflexivity.
  - by rewrite react_calls, react_warnings, react_delegations,
      react_notifications.
Qed.

Lemma reaction_noop i call (c : C) : callee i = Noop -> reaction i call c = [].
Proof. unfold reaction. by intros ->. Qed.

Lemma after_noop i call (c : C) : callee i = Noop -> after i call c = c.
Proof. unfold after. by intros ->. Qed.

Lemma started_eq i anon v w :
  let x0 := react (is_bound (helper v)) (reaction i agent (client w))
                  (userTokenBeforeInit v, helper_state w) in
  let c0 := after i agent (client w) in
  let st0 := snd (snd x0) in
  let st1 := <["clickAnalytics" := JBool true]> st0 in
  let applied := hasInsightsClient i && truthy anon in
  let st2 := if applied then <["userToken" := anon]> st1 else st1 in
  let fwd := to_forward (fst (snd x0)) (queuedUserToken v) in
  let r1 := match fwd with
            | Some t => reaction i (SetUserToken t) c0
            | None => []
            end in
  let c1 := match fwd with
            | Some t => after i (SetUserToken t) c0
            | None => c0
            end in
  let x1 := react true r1 (fst (snd x0), st2) in
  let x2 := react true (reaction i register c1)
                  (fst (snd x1), snd (snd x1)) in
  started i anon (v, w) =
  ({| queuedUserToken := queuedUserToken v;
      userTokenBeforeInit := fst (snd x2);
      initialParameters :=
        Some {| userToken := param "userToken" st0;
                clickAnalytics := param "clickAnalytics" st0 |};
      helper := Some InstanceHelper |},
   {| client := after i register c1;
      helper_state := snd (snd x2);
      sendEventToInsights := SlotGateway;
      effects :=
        effects w
        ++ (ECall (callee i) agent :: fst x0)
        ++ [EOverrideState st1; EScheduleSearch]
        ++ (if applied then [EOverrideState st2; EScheduleSearch] else [])
        ++ match fwd with
           | Some t => [ECall (callee i) (SetUserToken t)]
           | None => []
           end
        ++ fst x1
        ++ ECall (callee i) register :: fst x2 |}).
Proof.
  intros x0 c0 st0 st1 applied st2 fwd r1 c1 x1 x2.
  unfold started. fold agent register. rewrite invoke_eq. fold x0 c0.
  cbn -[react invoke x0 c0 agent register]. fold st0 st1.
  change (hasInsightsClient i && truthy anon) with applied.
  subst x2 x1 r1 c1 fwd. unfold to_forward.
  destruct (truthy (fst (snd x0))) eqn:Eu;
    [|destruct (truthy (queuedUserToken v)) eqn:Eq];
    destruct applied eqn:Ea; subst st2;
    rewrite ?invoke_eq; cbn -[react invoke x0 c0 agent register];
    rewrite ?invoke_eq; cbn -[react invoke x0 c0 agent register];
    unfold set_userTokenBeforeInit, bind_helper, with_slot;
    cbn -[react invoke x0 c0 agent register];
    do 2 f_equal;
    rewrite <- ?app_assoc; cbn -[react x0 c0 agent register];
    rewrite <- ?app_assoc; cbn -[react x0 c0 agent register];
    try reflexivity.
Qed.

Lemma started_slot i anon (s : Vars * World C) :
  sendEventToInsights (snd (started i anon s)) = SlotGateway.
Proof. destruct s as [v w]. by rewrite started_eq. Qed.

(** The session after [started()], when the snapshot is taken of the
    session as [started()] found it: [started()] has not run before, or
    the client tells the listener nothing while it handles
    [addAlgoliaAgent]. *)
Lemma started_fresh i anon v w :
  helper v = None \/ tokens (reaction i agent (client w)) = [] ->
  exists ts,
    helper_state (snd (started i anon (v, w)))
    = told ts (<["clickAnalytics" := JBool true]> (helper_state w))
    /\ helper (fst (started i anon (v, w))) = Some InstanceHelper
    /\ initialParameters (fst (started i anon (v, w)))
       = Some {| userToken := param "userToken" (helper_state w);
                 clickAnalytics := param "clickAnalytics" (helper_state w) |}.
Proof.
  intros Hv. rewrite started_eq. cbn [fst snd helper_state helper initialParameters].
  set (x0 := react _ (reaction i agent (client w)) _).
  assert (Hx0 : snd (snd x0) = helper_state w).
  { subst x0. rewrite react_state. destruct Hv as [-> | ->]; [done|].
    by destruct (is_bound (helper v)). }
  rewrite Hx0.
  set (st1 := <["clickAnalytics" := JBool true]> (helper_state w)).
  set (st2 := if hasInsightsClient i && truthy anon
              then <["userToken" := anon]> st1 else st1).
  assert (Hst2 : exists ts0, st2 = told ts0 st1).
  { subst st2. destruct (hasInsightsClient i && truthy anon).
    - by exists [anon].
    - by exists []. }
  destruct Hst2 as [ts0 ->].
  set (x1 := react true _ (fst (snd x0), told ts0 st1)).
  set (x2 := react true _ (fst (snd x1), snd (snd x1))).
  exists (ts0 ++ listened (fst x1) ++ listened (fst x2)).
  split; [|done].
  rewrite !told_app. subst x2.
  rewrite (react_told true _ (fst (snd x1), snd (snd x1))). cbn [snd].
  subst x1. by rewrite (react_told true _ (fst (snd x0), told ts0 st1)).
Qed.

Lemma unsubscribe_eq i v w :
  let x := react (is_bound (helper v)) (reaction i unregister (client w))
                 (userTokenBeforeInit v, helper_state w) in
  let st := match helper v, initialParameters v with
            | Some _, Some p => restore p (snd (snd x))
            | _, _ => snd (snd x)
            end in
  unsubscribe i (v, w) =
  (set_userTokenBeforeInit (fst (snd x)) v,
   {| client := after i unregister (client w);
      helper_state := st;
      sendEventToInsights := SlotNoop;
      effects :=
        effects w
        ++ (ECall (callee i) unregister :: fst x)
        ++ match helper v, initialParameters v with
           | Some _, Some p => [ESetState st; EScheduleSearch]
           | _, _ => []
           end |}).
Proof.
  intros x st. unfold unsubscribe. fold unregister. rewrite invoke_eq.
  fold x. subst st. cbn -[react x unregister].
  destruct (helper v), (initialParameters v);
    unfold scheduleSearch, setState, with_state, with_slot, log;
    cbn -[react x unregister]; rewrite <- ?app_assoc, ?app_nil_r;
    reflexivity.
Qed.

(** With [helper] and the snapshot in place, [unsubscribe()] leaves
    the snapshot on the session. *)
Lemma unsubscribe_restore i (s : Vars * World C) p :
  helper (fst s) = Some InstanceHelper ->
  initialParameters (fst s) = Some p ->
  exists ts,
    helper_state (snd (unsubscribe i s))
    = restore p (told ts (helper_state (snd s))).
Proof.
  destruct s as [v w]. cbn [fst snd]. intros Hh Hp.
  rewrite unsubscribe_eq. cbn [snd helper_state]. rewrite Hh, Hp.
  rewrite react_told. cbn [snd]. eauto.
Qed.

End Facts.

(** ** Construction and set-up *)

(** [createInsightsMiddleware] either throws or returns a factory; with
    [null] for a client the factory holds [noop]. *)
Lemma throws_or_returns DEV props :
  (exists e, createInsightsMiddleware DEV props = inl e)
  \/ (exists f,
        createInsightsMiddleware DEV props = inr f
        /\ (insightsClient (props_or_empty props) = PropValue JNull ->
            f_hasInsightsClient f = false /\ f_insightsClient f = VarNoop)).
Proof.
  unfold createInsightsMiddleware. cbn zeta.
  destruct (negb _ && negb _); [left; eauto|].
  right. eexists. split; [reflexivity|]. by intros ->.
Qed.

Section SetupFacts.

Context {C : Type} `{InsightsClient C}.
Context {SearchClient : Type}.
Variable getAppIdAndApiKey : SearchClient -> jsval * jsval.

Implicit Types (v : Vars) (w : World C) (i : Settings) (f : Factory).

(** What the set-up leaves behind when it succeeds. *)
Lemma middleware_inr DEV f sc w i s :
  middleware getAppIdAndApiKey DEV f sc w = inr (i, s) ->
  callable_of (f_insightsClient f) = Some (callee i)
  /\ hasInsightsClient i = f_hasInsightsClient f
  /\ _insightsClient i = f_raw f
  /\ handler i = f_onEvent f
  /\ queuedUserToken (fst s)
     = read_queue (match callee i with
                   | Noop => None
                   | Client => client_queue (client w)
                   end)
  /\ helper (fst s) = None
  /\ initialParameters (fst s) = None
  /\ helper_state (snd s) = helper_state w
  /\ sendEventToInsights (snd s) = sendEventToInsights w
  /\ calls (emitted w (snd s))
     = [GetUserToken;
        Init (fst (getAppIdAndApiKey sc)) (snd (getAppIdAndApiKey sc))
             (f_initParams f)].
Proof.
  unfold middleware. destruct (getAppIdAndApiKey sc) as [appId apiKey].
  destruct (DEV && negb (truthy appId && truthy apiKey)); [discriminate|].
  destruct (callable_of (f_insightsClient f)) as [target|]; [|discriminate].
  rewrite !invoke_eq. cbn -[react].
  intros [= <- <-]. cbn -[react].
  rewrite !react_state. cbn.
  repeat split; try reflexivity.
  erewrite emitted_app.
  2:{ cbn -[react]. rewrite <- app_assoc. reflexivity. }
  cbn -[react]. rewrite calls_app. cbn -[react].
  by rewrite !react_calls.
Qed.

(** With a callable client the set-up fails on nothing but the
    credentials check of the development build. *)
Lemma middleware_succeeds DEV f sc (w : World C) :
  callable f = true ->
  DEV && negb (has_credentials getAppIdAndApiKey sc) = false ->
  exists i s, middleware getAppIdAndApiKey DEV f sc w = inr (i, s).
Proof.
  unfold callable, middleware, has_credentials.
  destruct (getAppIdAndApiKey sc) as [appId apiKey].
  intros [target Hf]%bool_decide_eq_true ->. rewrite Hf. eauto.
Qed.

(** The set-up with [noop] for a client. *)
Lemma middleware_noop DEV f sc w i s :
  f_insightsClient f = VarNoop ->
  middleware getAppIdAndApiKey DEV f sc w = inr (i, s) ->
  callee i = Noop
  /\ hasInsightsClient i = f_hasInsightsClient f
  /\ queuedUserToken (fst s) = JUndefined
  /\ userTokenBeforeInit (fst s) = JUndefined
  /\ helper (fst s) = None
  /\ helper_state (snd s) = helper_state w
  /\ client (snd s) = client w.
Proof.
  intros Hf. unfold middleware. rewrite Hf.
  destruct (getAppIdAndApiKey sc) as [appId apiKey].
  destruct (DEV && negb (truthy appId && truthy apiKey)); [discriminate|].
  cbn [callable_of]. intros [= <- <-]. by cbv.
Qed.

End SetupFacts.

(** ** The queue scan *)

Lemma find_app_none {A} (l1 l2 : list A) p :
  forallb (fun x => negb (p x)) l1 = true -> find (l1 ++ l2) p = find l2 p.
Proof.
  induction l1 as [|x l1 IH]; simpl; [done|].
  intros [Hx Hl]%andb_true_iff. destruct (p x); [discriminate|]. by apply IH.
Qed.

Lemma find_none {A} (l : list A) p :
  forallb (fun x => negb (p x)) l = true -> find l p = None.
Proof.
  intros Hl. rewrite <- (app_nil_r l). by rewrite find_app_none.
Qed.

Lemma forallb_rev {A} (p : A -> bool) l :
  forallb p (rev l) = forallb p l.
Proof.
  induction l as [|x l IH]; simpl; [done|].
  rewrite forallb_app, IH. simpl. rewrite andb_true_r. apply andb_comm.
Qed.

Lemma scan_queue_most_recent (before after : list (list jsval)) entry :
  is_setUserToken entry = true ->
  forallb (fun e => negb (is_setUserToken e)) after = true ->
  scan_queue (before ++ entry :: after) = nth 1 entry JUndefined.
Proof.
  intros He Ha. unfold scan_queue.
  rewrite rev_app_distr. simpl. rewrite <- app_assoc.
  rewrite find_app_none by (by rewrite forallb_rev).
  simpl. by rewrite He.
Qed.

Lemma scan_queue_none (queue : list (list jsval)) :
  forallb (fun e => negb (is_setUserToken e)) queue = true ->
  scan_queue queue = JUndefined.
Proof.
  intros Hq. unfold scan_queue. rewrite find_none by (by rewrite forallb_rev).
  reflexivity.
Qed.

(** * The claims *)

(** ** The configuration of the client *)

(** C7.  [createInsightsMiddleware(props)] throws exactly when the option
    [insightsClient] is absent, that is falsy ([undefined], or [props]
    itself missing, [false], [0], ['']) and not [null].  With [null] it
    returns, [hasInsightsClient] is false and the variable
    [insightsClient] holds [noop]: in the middleware set up from it every
    call of [insightsClient] goes to [noop], which leaves the variables
    and the collaborators as they are (the call is only logged). *)
Theorem throws_iff_client_absent DEV props :
  let c := insightsClient (props_or_empty props) in
  (createInsightsMiddleware DEV props
   = inl (ConfigError (if DEV then msg_required_dev else msg_required_prod))
   <-> prop_is_null c = false /\ prop_truthy c = false)
  /\ ((exists e, createInsightsMiddleware DEV props = inl e)
      <-> prop_is_null c = false /\ prop_truthy c = false)
  /\ (c = PropValue JNull ->
      exists f,
        createInsightsMiddleware DEV props = inr f
        /\ f_hasInsightsClient f = false
        /\ f_insightsClient f = VarNoop
        /\ forall (C SearchClient : Type) (IC : InsightsClient C)
             (getAppIdAndApiKey : SearchClient -> jsval * jsval)
             DEV' sc (w : World C) i s,
             middleware getAppIdAndApiKey DEV' f sc w = inr (i, s) ->
             callee i = Noop
             /\ hasInsightsClient i = false
             /\ forall call s0,
                  invoke i call s0 = (fst s0, log (ECall Noop call) (snd s0))).
Proof.
  unfold createInsightsMiddleware. cbn zeta.
  destruct (prop_is_null (insightsClient (props_or_empty props))) eqn:En;
    destruct (prop_truthy (insightsClient (props_or_empty props))) eqn:Et;
    simpl.
  - destruct (insightsClient (props_or_empty props)) as [[]|]; discriminate.
  - split; [|split].
    + split; [discriminate | intros [? ?]; congruence].
    + split; [intros [? ?]; discriminate | intros [? ?]; congruence].
    + intros Hc. eexists. split; [reflexivity|]. simpl. do 2 (split; [done|]).
      intros C SC IC gaa DEV' sc w i s E.
      apply (middleware_inr gaa) in E as (Hi & Hh & _). simpl in Hi, Hh.
      injection Hi as Hi.
      split; [done|]. split; [done|]. intros call s0. by apply invoke_noop.
  - split; [|split].
    + split; [discriminate | intros [? ?]; congruence].
    + split; [intros [? ?]; discriminate | intros [? ?]; congruence].
    + intros Hc. rewrite Hc in En. discriminate.
  - split; [|split].
    + done.
    + split; [done | eauto].
    + intros Hc. rewrite Hc in En. discriminate.
Qed.

(** Without [props], and with [{ insightsClient: null }]. *)
Lemma throws_iff_client_absent_witness :
  createInsightsMiddleware true None = inl (ConfigError msg_required_dev)
  /\ exists f,
       createInsightsMiddleware true (props_of (PropValue JNull)) = inr f
       /\ f_insightsClient f = VarNoop.
Proof.
  split.
  - apply (throws_iff_client_absent true None). split; reflexivity.
  - destruct (throws_iff_client_absent true (props_of (PropValue JNull)))
      as (_ & _ & Hnull).
    destruct (Hnull eq_refl) as (f & E & _ & Hv & _).
    exists f. split; assumption.
Defined.

(** ** The credentials *)

(** C8 as stated fails here.  In a production build, with
    [insightsClient: null], a search client without credentials does not
    stop the set-up: it returns the middleware, after [getUserToken] and
    [init] with undefined credentials went to [noop]. *)
Lemma missing_credentials_pass_in_production :
  has_credentials credentials_of without_credentials = false
  /\ setup credentials_of false (props_of (PropValue JNull)) without_credentials
       (world_of tt session_u0)
     = inr ({| _insightsClient := PropValue JNull;
               hasInsightsClient := false;
               callee := Noop;
               handler := None |},
            ({| queuedUserToken := JUndefined;
                userTokenBeforeInit := JUndefined;
                initialParameters := None;
                helper := None |},
             {| client := tt;
                helper_state := session_u0;
                sendEventToInsights := SlotNoop;
                effects := [ECall Noop GetUserToken;
                            ECall Noop (Init JUndefined JUndefined None)] |})).
Proof. split; reflexivity. Qed.

Section Credentials.

Context {C : Type} `{InsightsClient C}.
Context {SearchClient : Type}.
Variable getAppIdAndApiKey : SearchClient -> jsval * jsval.

Implicit Types (v : Vars) (w : World C) (i : Settings) (f : Factory).

(** C8, amended.  In a development build the function
    [createInsightsMiddleware] returns throws the credentials error
    exactly when the credentials cannot be extracted from the search
    client, whatever the analytics client; so a set-up
    [createInsightsMiddleware(props)({ instantSearchInstance })] with
    such a search client always throws and returns no middleware: the
    credentials error when the option [insightsClient] passed the check
    of the outer function.  In a production build the middleware checks
    no credentials: with [insightsClient: null] the set-up returns for
    every search client, its two calls, [init] with whatever was
    extracted included, going to [noop]. *)
Theorem credentials_fatal_in_development props f sc (w : World C) :
  (middleware getAppIdAndApiKey true f sc w = inl (ConfigError msg_credentials)
   <-> has_credentials getAppIdAndApiKey sc = false)
  /\ (has_credentials getAppIdAndApiKey sc = false ->
      (exists e, setup getAppIdAndApiKey true props sc w = inl e)
      /\ (forall f',
             createInsightsMiddleware true props = inr f' ->
             setup getAppIdAndApiKey true props sc w
             = inl (ConfigError msg_credentials)))
  /\ (insightsClient (props_or_empty props) = PropValue JNull ->
      exists i s,
        setup getAppIdAndApiKey false props sc w = inr (i, s)
        /\ callee i = Noop
        /\ client (snd s) = client w
        /\ emitted w (snd s)
           = [ECall Noop GetUserToken;
              ECall Noop
                (Init (fst (getAppIdAndApiKey sc)) (snd (getAppIdAndApiKey sc))
                      (insightsInitParams (props_or_empty props)))]).
Proof.
  assert (Hdev : forall f0,
    has_credentials getAppIdAndApiKey sc = false ->
    middleware getAppIdAndApiKey true f0 sc w
    = inl (ConfigError msg_credentials)).
  { intros f0. unfold has_credentials, middleware.
    destruct (getAppIdAndApiKey sc) as [appId apiKey]. by intros ->. }
  split; [|split].
  - split; [|apply Hdev].
    unfold has_credentials, middleware.
    destruct (getAppIdAndApiKey sc) as [appId apiKey].
    destruct (truthy appId && truthy apiKey); [|done].
    cbn [andb negb]. by destruct (callable_of (f_insightsClient f)).
  - intros Hsc. unfold setup.
    destruct (createInsightsMiddleware true props) as [e|f0].
    + split; [by exists e | intros f' [=]].
    + split; [|intros f' _]; rewrite (Hdev f0 Hsc); eauto.
  - intros Hnull. unfold setup, createInsightsMiddleware. cbn zeta.
    rewrite Hnull. cbn. unfold middleware.
    destruct (getAppIdAndApiKey sc) as [appId apiKey]. cbn.
    eexists _, _. split; [reflexivity|]. cbn.
    split; [done|]. split; [done|].
    apply emitted_app. cbn. by rewrite <- app_assoc.
Qed.

End Credentials.

(** A search client without credentials: with the snippet client in a
    development build, and in the disabled mode in a production build. *)
Lemma credentials_fatal_in_development_witness :
  setup credentials_of true (props_of PropClient) without_credentials
    (world_of queue_a_b session_u0)
  = inl (ConfigError msg_credentials)
  /\ exists i s,
       setup credentials_of false (props_of (PropValue JNull))
         without_credentials (world_of tt session_u0) = inr (i, s)
       /\ callee i = Noop.
Proof.
  split.
  - destruct (credentials_fatal_in_development credentials_of
                (props_of PropClient) client_factory without_credentials
                (world_of queue_a_b session_u0))
      as (_ & Hdev & _).
    destruct Hdev as [_ Herror]; [reflexivity|].
    apply (Herror client_factory). reflexivity.
  - destruct (credentials_fatal_in_development credentials_of
                (props_of (PropValue JNull)) null_factory without_credentials
                (world_of tt session_u0))
      as (_ & _ & Hprod).
    destruct Hprod as (i & s & E & Hc & _); [reflexivity|].
    exists i, s. split; [exact E | exact Hc].
Defined.

(** ** The queued token *)

Section QueueClaim.

Context {C : Type} `{InsightsClient C}.
Context {SearchClient : Type}.
Variable getAppIdAndApiKey : SearchClient -> jsval * jsval.

Implicit Types (v : Vars) (w : World C) (i : Settings) (f : Factory).

(** C4.  On an analytics client, and with credentials that pass, the
    set-up always succeeds and leaves in [queuedUserToken] the payload
    (the second element) of the most recent ['setUserToken'] entry of
    the client's queue, whatever was queued before it; for the queue
    [[['setUserToken','a'], ['other'], ['setUserToken','b']]] that is
    ['b'].  A client without a queue, or a queue without a
    ['setUserToken'] entry, leaves [queuedUserToken] undefined, and the
    set-up succeeds all the same. *)
Theorem queued_token_is_most_recent DEV f sc (w : World C) :
  f_insightsClient f = VarRaw PropClient ->
  DEV && negb (has_credentials getAppIdAndApiKey sc) = false ->
  exists i s,
    middleware getAppIdAndApiKey DEV f sc w = inr (i, s)
    /\ (forall before entry after,
           client_queue (client w) = Some (before ++ entry :: after) ->
           is_setUserToken entry = true ->
           forallb (fun e => negb (is_setUserToken e)) after = true ->
           queuedUserToken (fst s) = nth 1 entry JUndefined)
    /\ (client_queue (client w)
        = Some [[JStr "setUserToken"; JStr "a"]; [JStr "other"];
                [JStr "setUserToken"; JStr "b"]] ->
        queuedUserToken (fst s) = JStr "b")
    /\ (client_queue (client w) = None ->
        queuedUserToken (fst s) = JUndefined)
    /\ (forall queue,
           client_queue (client w) = Some queue ->
           forallb (fun e => negb (is_setUserToken e)) queue = true ->
           queuedUserToken (fst s) = JUndefined).
Proof.
  intros Hf Hc.
  destruct (middleware_succeeds getAppIdAndApiKey DEV f sc w)
    as (i & s & E); [|done|].
  { unfold callable. by rewrite Hf. }
  exists i, s. split; [done|].
  apply middleware_inr in E as (Hi & _ & _ & _ & Hq & _).
  rewrite Hf in Hi. injection Hi as Hi. rewrite <- Hi in Hq. rewrite Hq.
  repeat split.
  - intros before entry after -> He Ha. by apply scan_queue_most_recent.
  - by intros ->.
  - by intros ->.
  - intros queue -> Hn. by apply scan_queue_none.
Qed.

End QueueClaim.

(** The scan on the snippet client with the queue [queue_a_b]. *)
Lemma queued_token_is_most_recent_witness :
  exists i s,
    middleware credentials_of true client_factory with_credentials
      (world_of queue_a_b session_u0) = inr (i, s)
    /\ queuedUserToken (fst s) = JStr "b".
Proof.
  destruct (queued_token_is_most_recent credentials_of true client_factory
              with_credentials (world_of queue_a_b session_u0)
              eq_refl eq_refl) as (i & s & E & _ & Hb & _).
  exists i, s. split; [exact E|]. apply Hb. reflexivity.
Defined.

(** ** Which token reaches the session *)

(** C1.  The snippet of search-insights before the library has loaded,
    with [[['setUserToken','a'], ['other'], ['setUserToken','b']]] in its
    queue, a session with the token ['u0'] and no anonymous token.  The
    set-up reads ['b'] from the queue and [getUserToken] is not answered,
    so the order of the specification gives ['b'] for the session.
    [started()] requests the first search while the session still has
    ['u0']: ['b'] only goes back to the client with [setUserToken],
    which the snippet appends to its queue, and no later write follows.
    With an anonymous token ['anon'] the session gets ['anon'].  The
    comment of the source on the queue scan gives as its purpose that
    the first search is not fired without the queued token. *)
Theorem queued_token_not_on_session :
  exists i s,
    setup credentials_of true (props_of PropClient) with_credentials
      (world_of queue_a_b session_u0) = inr (i, s)
    /\ queuedUserToken (fst s) = JStr "b"
    /\ userTokenBeforeInit (fst s) = JUndefined
    /\ spec_resolved_token (hasInsightsClient i) (userTokenBeforeInit (fst s))
         (queuedUserToken (fst s)) JUndefined
         (param "userToken" (helper_state (snd s))) = JStr "b"
    /\ param "userToken" (helper_state (snd (started i JUndefined s))) = JStr "u0"
    /\ emitted (snd s) (snd (started i JUndefined s))
       = [ECall Client (AddAlgoliaAgent "insights-middleware");
          EOverrideState (<["clickAnalytics" := JBool true]> session_u0);
          EScheduleSearch;
          ECall Client (SetUserToken (JStr "b"));
          ECall Client (OnUserTokenChange (Some SetUserTokenToSearch) (Some true))]
    /\ client (snd (started i JUndefined s))
       = queue_a_b
         ++ [[JStr "getUserToken"; JNull; JObj 0];
             [JStr "init"; JObj 1];
             [JStr "addAlgoliaAgent"; JStr "insights-middleware"];
             [JStr "setUserToken"; JStr "b"];
             [JStr "onUserTokenChange"; JObj 2; JObj 3]]
    /\ param "userToken" (helper_state (snd (started i (JStr "anon") s)))
       = JStr "anon".
Proof. do 2 eexists. split; [reflexivity|]. by vm_compute. Qed.

(** On a loaded client that holds no token, with no token from
    [getUserToken], none queued and no anonymous one: the client reports
    its current token, [undefined], as soon as the listener is
    registered, and the session loses the ['u0'] it had. *)
Example loaded_client_without_token :
  param "userToken"
    (helper_state
       (snd (started client_settings JUndefined
               (fresh_vars JUndefined JUndefined,
                world_of (loaded_with JUndefined) session_u0))))
  = JUndefined.
Proof. reflexivity. Qed.

Section Resolution.

Context {C : Type} `{InsightsClient C}.

Implicit Types (v : Vars) (w : World C) (i : Settings) (es : list Effect).

(** X14.  What [started()] does with the tokens, for every client.
    Let [tokenBeforeInit] be the variable [userTokenBeforeInit] as it
    stands when [started()] decides, that is once [addAlgoliaAgent] has
    returned.  [started()] hands to the client, with [setUserToken],
    [tokenBeforeInit] if truthy, otherwise the queued token if truthy,
    otherwise nothing; whatever the queue holds, a truthy
    [tokenBeforeInit] is the one handed over.  The token on the session
    after [started()] is then the last one the client told the listener.
    With a client that tells the listener its current token as soon as
    the listener is registered, and whose [setUserToken] makes its
    argument the current token, the session ends with [tokenBeforeInit]
    if truthy, otherwise with the queued token if truthy (the order of
    the specification), otherwise with the current token of the client.
    With a client that tells the listener nothing before its calls
    return (the [noop] of the disabled mode is one), and neither token
    truthy, the session ends with the anonymous token if there is an
    analytics client and an anonymous token, and otherwise keeps the
    token it had. *)
Theorem token_resolution i anon (s : Vars * World C) :
  let decision := invoke i agent s in
  let tokenBeforeInit := userTokenBeforeInit (fst decision) in
  let queued := queuedUserToken (fst s) in
  let existing := param "userToken" (helper_state (snd s)) in
  let s' := started i anon s in
  let final := param "userToken" (helper_state (snd s')) in
  effects (snd s') = effects (snd s) ++ emitted (snd s) (snd s')
  /\ forwarded (emitted (snd s) (snd s'))
     = match to_forward tokenBeforeInit queued with
       | Some token => [token]
       | None => []
       end
  /\ (forall current,
         immediate_client i current ->
         final = match to_forward tokenBeforeInit queued with
                 | Some token => token
                 | None => current (client (snd decision))
                 end
         /\ (truthy tokenBeforeInit || truthy queued = true ->
             final = spec_resolved_token (hasInsightsClient i)
                       tokenBeforeInit queued anon existing))
  /\ (quiet i ->
      to_forward tokenBeforeInit queued = None ->
      final = spec_resolved_token (hasInsightsClient i)
                tokenBeforeInit queued anon existing
      /\ final = if hasInsightsClient i && truthy anon then anon else existing).
Proof.
  destruct s as [v w].
  intros decision u q existing s' final. cbn [fst snd] in *.
  assert (Hu : u = fst (snd (react (is_bound (helper v))
                               (reaction i agent (client w))
                               (userTokenBeforeInit v, helper_state w)))).
  { subst u decision. by rewrite invoke_eq. }
  assert (Hc : client (snd decision) = after i agent (client w)).
  { subst decision. by rewrite invoke_eq. }
  subst final s'. rewrite started_eq.
  cbn [fst snd helper_state effects].
  erewrite emitted_app by reflexivity.
  rewrite <- Hu. fold q.
  set (x0 := react _ (reaction i agent (client w)) _).
  set (st1 := <["clickAnalytics" := JBool true]> (snd (snd x0))).
  set (st2 := if hasInsightsClient i && truthy anon
              then <["userToken" := anon]> st1 else st1).
  split; [reflexivity|]. split; [|split].
  - autorewrite with readers. simpl. subst x0.
    rewrite !react_forwarded. simpl.
    destruct (hasInsightsClient i && truthy anon);
      destruct (to_forward u q); by simpl.
  - intros current [Hreg Hset].
    rewrite react_state. cbn [snd].
    assert (Hfinal : forall c r x,
      param "userToken"
        (told (tokens (reaction i register c)) (snd (snd (react true r x))))
      = current c).
    { intros c r x. unfold register. rewrite told_eq, Hreg.
      apply param_insert_eq. }
    rewrite Hfinal.
    assert (Hgen : current match to_forward u q with
                           | Some t => after i (SetUserToken t) (after i agent (client w))
                           | None => after i agent (client w)
                           end
                   = match to_forward u q with
                     | Some token => token
                     | None => current (client (snd decision))
                     end).
    { destruct (to_forward u q); [apply Hset | by rewrite Hc]. }
    split; [exact Hgen|].
    intros Hpresent. rewrite Hgen. unfold to_forward, spec_resolved_token.
    destruct (truthy u); [done|]. by destruct (truthy q).
  - intros Hquiet Hnone. rewrite Hnone.
    rewrite react_state, Hquiet. cbn [told foldl snd].
    assert (Hst0 : snd (snd x0) = helper_state w).
    { subst x0. rewrite react_state. by destruct (is_bound (helper v)); rewrite ?Hquiet. }
    assert (Hfinal : param "userToken" st2
                     = if hasInsightsClient i && truthy anon
                       then anon else existing).
    { subst st2 st1. destruct (hasInsightsClient i && truthy anon).
      - apply param_insert_eq.
      - rewrite param_insert_ne by done. by rewrite Hst0. }
    change (snd (snd (react true [] (u, st2)))) with st2.
    split; [|exact Hfinal].
    rewrite Hfinal. unfold to_forward in Hnone. unfold spec_resolved_token.
    destruct (truthy u); [done|]. by destruct (truthy q).
Qed.

End Resolution.

(** On a loaded client that holds ['t'], with ['b'] queued, the session
    ends with ['t']; in the disabled mode, with an anonymous token
    around, the session keeps ['u0']. *)
Lemma token_resolution_witness :
  param "userToken"
    (helper_state
       (snd (started client_settings (JStr "anon")
               (fresh_vars (JStr "b") (JStr "t"),
                world_of (loaded_with (JStr "t")) session_u0))))
  = JStr "t"
  /\ param "userToken"
       (helper_state
          (snd (started null_settings (JStr "anon")
                  (fresh_vars JUndefined JUndefined,
                   world_of tt session_u0))))
     = JStr "u0".
Proof.
  split.
  - destruct (token_resolution client_settings (JStr "anon")
                (fresh_vars (JStr "b") (JStr "t"),
                 world_of (loaded_with (JStr "t")) session_u0))
      as (_ & _ & Himmediate & _).
    destruct (Himmediate current_token) as [Hfinal _].
    + split; intros; reflexivity.
    + exact Hfinal.
  - destruct (token_resolution null_settings (JStr "anon")
                (fresh_vars JUndefined JUndefined, world_of tt session_u0))
      as (_ & _ & _ & Hquiet).
    destruct Hquiet as [_ Hfinal].
    + intros call c. reflexivity.
    + reflexivity.
    + exact Hfinal.
Defined.

(** ** The writes of [started()] *)

Section Writes.

Context {C : Type} `{InsightsClient C}.

Implicit Types (v : Vars) (w : World C) (i : Settings) (es : list Effect).

(** C5.  In [started()] nothing is written to the session with
    [setState], the write that notifies: the log of [started()] has no
    such write.  Every write is an
    [overrideStateWithoutTriggeringChangeEvent], each is directly
    followed by one [scheduleSearch], there is no other
    [scheduleSearch], and the session ends as the last of these writes
    left it.  The same holds when the client tells the listener a new
    token later on: one override with the token, then one
    [scheduleSearch]. *)
Theorem writes_do_not_notify i anon (s : Vars * World C) :
  let s' := started i anon s in
  let es := emitted (snd s) (snd s') in
  effects (snd s') = effects (snd s) ++ es
  /\ notifications es = []
  /\ paired es = true
  /\ searches es = length (overrides es)
  /\ last (overrides es) = Some (helper_state (snd s'))
  /\ forall token (s1 : Vars * World C),
       is_bound (helper (fst s1)) = true ->
       let s2 := deliver s1 (UserTokenListener token) in
       helper_state (snd s2) = <["userToken" := token]> (helper_state (snd s1))
       /\ emitted (snd s1) (snd s2)
          = [ECallback (UserTokenListener token);
             EOverrideState (helper_state (snd s2));
             EScheduleSearch].
Proof.
  destruct s as [v w]. intros s' es. subst es s'.
  rewrite started_eq. cbn [fst snd helper_state effects].
  erewrite emitted_app by reflexivity.
  split; [reflexivity|].
  set (x0 := react _ (reaction i agent (client w)) _).
  set (st1 := <["clickAnalytics" := JBool true]> (snd (snd x0))).
  set (applied := hasInsightsClient i && truthy anon).
  set (st2 := if applied then <["userToken" := anon]> st1 else st1).
  set (fwd := to_forward (fst (snd x0)) (queuedUserToken v)).
  set (x1 := react true _ (fst (snd x0), st2)).
  set (x2 := react true _ (fst (snd x1), snd (snd x1))).
  split; [|split; [|split; [|split]]].
  - autorewrite with readers. simpl.
    subst x0 x1 x2. rewrite !react_notifications.
    by destruct applied, fwd.
  - apply paired_app; [rewrite paired_call; apply react_paired|].
    apply (paired_app [_; _]); [done|].
    apply paired_app; [by destruct applied|].
    apply paired_app; [by destruct fwd|].
    apply paired_app; [apply react_paired|]. rewrite paired_call.
    apply react_paired.
  - autorewrite with readers. simpl. autorewrite with readers.
    rewrite !length_app. simpl.
    subst x0 x1 x2.
    rewrite !react_searches, !react_overrides.
    destruct applied, fwd; simpl;
      rewrite ?length_app, ?react_overrides; simpl; lia.
  - autorewrite with readers. simpl.
    assert (H1 : last (st2 :: overrides (fst x1)) = Some (snd (snd x1)))
      by apply (react_last_override true _ (fst (snd x0), st2)).
    assert (H2 : last (snd (snd x1) :: overrides (fst x2)) = Some (snd (snd x2)))
      by apply (react_last_override true _ (fst (snd x1), snd (snd x1))).
    assert (Hf : overrides match fwd with
                           | Some t => [ECall (callee i) (SetUserToken t)]
                           | None => []
                           end = []) by (by destruct fwd).
    rewrite Hf. simpl.
    subst st2. destruct applied; simpl.
    + change (st1 :: <["userToken":=anon]> st1 :: overrides (fst x1) ++ overrides (fst x2))
        with ([st1] ++ <["userToken":=anon]> st1 :: overrides (fst x1) ++ overrides (fst x2)).
      rewrite app_assoc. by eapply last_chain.
    + by eapply last_chain.
  - intros token [v1 w1] Hb. simpl in Hb. simpl.
    destruct (helper v1); [|discriminate]. simpl.
    split; [done|]. apply emitted_app. simpl. by rewrite <- !app_assoc.
Qed.

End Writes.

(** The writes of [started()] on a loaded client, and the write when
    that client tells the listener ['later'] afterwards. *)
Lemma writes_do_not_notify_witness :
  notifications
    (emitted (world_of (loaded_with (JStr "t")) session_u0)
       (snd (started client_settings JUndefined
               (fresh_vars JUndefined (JStr "t"),
                world_of (loaded_with (JStr "t")) session_u0))))
  = []
  /\ param "userToken"
       (helper_state
          (snd (deliver
                  (started client_settings JUndefined
                     (fresh_vars JUndefined (JStr "t"),
                      world_of (loaded_with (JStr "t")) session_u0))
                  (UserTokenListener (JStr "later")))))
     = JStr "later".
Proof.
  destruct (writes_do_not_notify client_settings JUndefined
              (fresh_vars JUndefined (JStr "t"),
               world_of (loaded_with (JStr "t")) session_u0))
    as (_ & Hnone & _ & _ & _ & Hlater).
  split; [exact Hnone|].
  destruct (Hlater (JStr "later")
              (started client_settings JUndefined
                 (fresh_vars JUndefined (JStr "t"),
                  world_of (loaded_with (JStr "t")) session_u0)))
    as [Hstate _]; [reflexivity|].
  rewrite Hstate. reflexivity.
Defined.

(** ** Snapshot and restore *)

Section Snapshot.

Context {C : Type} `{InsightsClient C}.

Implicit Types (v : Vars) (w : World C) (i : Settings) (es : list Effect).

(** C3.  Let [started()] take its snapshot of the session as it finds it
    (it has not run before, or the client tells the listener nothing
    while it handles [addAlgoliaAgent]).  After [started()] the session
    has [clickAnalytics: true].  After the [unsubscribe()] that follows,
    whatever the client told the listener in between, [userToken] and
    [clickAnalytics] are what they were before [started()] and no other
    parameter has changed.  For the session [{ userToken: 'u0',
    clickAnalytics: false }] the session is again exactly that. *)
Theorem snapshot_restored i anon (s : Vars * World C) (later : list Callback) :
  helper (fst s) = None \/ tokens (reaction i agent (client (snd s))) = [] ->
  let s1 := started i anon s in
  let s2 := unsubscribe i (foldl deliver s1 later) in
  param "clickAnalytics" (helper_state (snd s1)) = JBool true
  /\ param "userToken" (helper_state (snd s2))
     = param "userToken" (helper_state (snd s))
  /\ param "clickAnalytics" (helper_state (snd s2))
     = param "clickAnalytics" (helper_state (snd s))
  /\ (forall k, k ≠ "userToken" -> k ≠ "clickAnalytics" ->
                helper_state (snd s2) !! k = helper_state (snd s) !! k)
  /\ (helper_state (snd s) = session_u0 -> helper_state (snd s2) = session_u0).
Proof.
  destruct s as [v w]. intros Hv s1 s2. cbn [fst snd] in Hv |- *.
  destruct (started_fresh i anon v w Hv) as (ts & Hst & Hh & Hp).
  fold s1 in Hst, Hh, Hp.
  destruct (foldl_deliver_keeps s1 later) as (Hh' & Hp' & ts1 & Hst1).
  rewrite Hh in Hh'. rewrite Hp in Hp'.
  destruct (unsubscribe_restore i _ _ Hh' Hp') as (ts' & Hs2). fold s2 in Hs2.
  rewrite Hst1, Hst in Hs2.
  assert (Hu : param "userToken" (helper_state (snd s2))
               = param "userToken" (helper_state w)).
  { rewrite Hs2. unfold restore. rewrite param_insert_ne by done.
    apply param_insert_eq. }
  assert (Hc : param "clickAnalytics" (helper_state (snd s2))
               = param "clickAnalytics" (helper_state w)).
  { rewrite Hs2. apply param_insert_eq. }
  assert (Hother : forall k, k ≠ "userToken" -> k ≠ "clickAnalytics" ->
                     helper_state (snd s2) !! k = helper_state w !! k).
  { intros k Hk1 Hk2. rewrite Hs2. unfold restore.
    rewrite !lookup_insert_ne by done.
    rewrite !told_other by done.
    by rewrite lookup_insert_ne. }
  split; [|split; [|split; [|split]]]; try done.
  - rewrite Hst. unfold param. rewrite told_clickAnalytics.
    by rewrite lookup_insert_eq.
  - intros Hw. apply map_eq. intros k.
    destruct (decide (k = "userToken")) as [->|Hk1];
      [|destruct (decide (k = "clickAnalytics")) as [->|Hk2]].
    + rewrite Hs2. unfold restore. rewrite lookup_insert_ne by done.
      rewrite lookup_insert_eq. cbn [userToken]. by rewrite Hw.
    + rewrite Hs2. unfold restore. rewrite lookup_insert_eq.
      cbn [clickAnalytics]. by rewrite Hw.
    + rewrite Hother by done. by rewrite Hw.
Qed.

End Snapshot.

(** The round trip on the session [{ userToken: 'u0', clickAnalytics:
    false }], with a loaded client that holds ['t'] and reports ['later']
    before the teardown. *)
Lemma snapshot_restored_witness :
  param "clickAnalytics"
    (helper_state
       (snd (started client_settings JUndefined
               (fresh_vars JUndefined (JStr "t"),
                world_of (loaded_with (JStr "t")) session_u0))))
  = JBool true
  /\ helper_state
       (snd (unsubscribe client_settings
               (foldl deliver
                  (started client_settings JUndefined
                     (fresh_vars JUndefined (JStr "t"),
                      world_of (loaded_with (JStr "t")) session_u0))
                  [UserTokenListener (JStr "later")])))
     = session_u0.
Proof.
  destruct (snapshot_restored client_settings JUndefined
              (fresh_vars JUndefined (JStr "t"),
               world_of (loaded_with (JStr "t")) session_u0)
              [UserTokenListener (JStr "later")] (or_introl eq_refl))
    as (Hstarted & _ & _ & _ & Hback).
  split; [exact Hstarted | exact (Hback eq_refl)].
Defined.

(** ** The disabled mode *)

Section Disabled.

Context {C : Type} `{InsightsClient C}.
Context {SearchClient : Type}.
Variable getAppIdAndApiKey : SearchClient -> jsval * jsval.

Implicit Types (v : Vars) (w : World C) (i : Settings) (f : Factory).

(** C10.  With [insightsClient: null], in the middleware that the
    set-up returns, [started()] writes [clickAnalytics: true] on the
    session and nothing else: [userToken] and every other parameter are
    what they were, the anonymous token is not applied whatever it is,
    and the listener is handed to [noop], which never calls it, neither
    then nor at any later call of [insightsClient]. *)
Theorem disabled_mode_keeps_token DEV props sc w i s anon :
  insightsClient (props_or_empty props) = PropValue JNull ->
  setup getAppIdAndApiKey DEV props sc w = inr (i, s) ->
  let s' := started i anon s in
  let es := emitted (snd s) (snd s') in
  callee i = Noop
  /\ hasInsightsClient i = false
  /\ helper_state (snd s') = <["clickAnalytics" := JBool true]> (helper_state w)
  /\ param "userToken" (helper_state (snd s')) = param "userToken" (helper_state w)
  /\ (forall k, k ≠ "clickAnalytics" ->
                helper_state (snd s') !! k = helper_state w !! k)
  /\ effects (snd s') = effects (snd s) ++ es
  /\ es = [ECall Noop agent;
           EOverrideState (helper_state (snd s'));
           EScheduleSearch;
           ECall Noop register]
  /\ listened es = []
  /\ client (snd s') = client w
  /\ (forall call (s0 : Vars * World C),
        invoke i call s0 = (fst s0, log (ECall Noop call) (snd s0))).
Proof.
  intros Hnull Hsetup s' es.
  destruct (throws_or_returns DEV props) as [[e He]|[f [Hf Hshape]]].
  { unfold setup in Hsetup. by rewrite He in Hsetup. }
  unfold setup in Hsetup. rewrite Hf in Hsetup.
  destruct (Hshape Hnull) as [Hhas Hvar].
  apply (middleware_noop _ _ _ _ _ _ _ Hvar) in Hsetup
    as (Hc & Hh & Hq & Hu & Hhelper & Hst & Hcl).
  rewrite Hhas in Hh.
  destruct s as [v w0]. cbn [fst snd] in *.
  assert (Hs' : s' = started i anon (v, w0)) by done.
  rewrite started_eq in Hs'. rewrite !reaction_noop, !after_noop in Hs' by done.
  rewrite Hhelper, Hu, Hq, Hh, Hc in Hs'. cbn in Hs'.
  assert (Hstate : helper_state (snd s')
                   = <["clickAnalytics" := JBool true]> (helper_state w))
    by (by rewrite Hs', <- Hst).
  assert (Hes : es = [ECall Noop agent; EOverrideState (helper_state (snd s'));
                      EScheduleSearch; ECall Noop register]).
  { subst es. rewrite Hstate, <- Hst. apply emitted_app. by rewrite Hs'. }
  split; [done|]. split; [done|]. split; [done|].
  split; [|split; [|split; [|split; [|split; [|split]]]]].
  - rewrite Hstate. by apply param_insert_ne.
  - intros k Hk. rewrite Hstate. by apply lookup_insert_ne.
  - subst es. eapply emitted_suffix. rewrite Hs'. reflexivity.
  - done.
  - by rewrite Hes.
  - by rewrite Hs', <- Hcl.
  - intros call s0. by apply invoke_noop.
Qed.

End Disabled.

(** The disabled mode, [{ insightsClient: null }], with an anonymous
    token around. *)
Lemma disabled_mode_keeps_token_witness :
  param "userToken"
    (helper_state
       (snd (started null_settings (JStr "anon")
               (fresh_vars JUndefined JUndefined,
                {| client := tt;
                   helper_state := session_u0;
                   sendEventToInsights := SlotNoop;
                   effects := [ECall Noop GetUserToken;
                               ECall Noop (Init (JStr "app") (JStr "key") None)]
                |}))))
  = JStr "u0".
Proof.
  destruct (disabled_mode_keeps_token credentials_of true
              (props_of (PropValue JNull)) with_credentials
              (world_of tt session_u0) null_settings
              (fresh_vars JUndefined JUndefined,
               {| client := tt;
                  helper_state := session_u0;
                  sendEventToInsights := SlotNoop;
                  effects := [ECall Noop GetUserToken;
                              ECall Noop (Init (JStr "app") (JStr "key") None)]
               |})
              (JStr "anon") eq_refl eq_refl)
    as (_ & _ & _ & Htoken & _).
  exact Htoken.
Defined.

(** ** The gateway *)

Section Gateway.

Context {C : Type} `{InsightsClient C}.

Implicit Types (v : Vars) (w : World C) (i : Settings) (es : list Effect).

(** The gateway only adds to the log. *)
Lemma gateway_extends i event (s : Vars * World C) :
  exists es, effects (snd (gateway i event s)) = effects (snd s) ++ es.
Proof.
  destruct s as [v w]. unfold gateway, warning.
  destruct (handler i); [by eexists|].
  destruct (insightsMethod event) as [method|]; [|by eexists].
  destruct (negb (method =? "")%string); [|by eexists].
  destruct (truthy (param "userToken" (helper_state w))); [|by eexists].
  rewrite invoke_eq. by eexists.
Qed.

(** C2.  [started()] installs the gateway in
    [instantSearchInstance.sendEventToInsights], and for every event
    passed to the installed gateway:
    (1) with an [onEvent] handler, the handler is given the event and
    the [insightsClient] option as the caller wrote it, and that is all
    that happens: no warning, no call of the analytics client;
    (2) else, without [insightsMethod], there is one warning and
    nothing else;
    (3) else, with no [userToken] on the session, there is one warning
    and nothing else;
    (4) else the analytics client is called once, with the method and
    the payload of the event, and there is no warning. *)
Theorem gateway_dispatch i event (s : Vars * World C) :
  (forall anon s0, sendEventToInsights (snd (started i anon s0)) = SlotGateway)
  /\ (sendEventToInsights (snd s) = SlotGateway ->
      let s' := sendEvent i event s in
      let es := emitted (snd s) (snd s') in
      effects (snd s') = effects (snd s) ++ es
      /\ (forall h,
          handler i = Some h ->
          s' = (fst s, log (EOnEvent h event (_insightsClient i)) (snd s))
          /\ delegations es = [(h, event, _insightsClient i)]
          /\ calls es = [] /\ warnings es = [])
      /\ (handler i = None ->
          insightsMethod event = None ->
          s' = (fst s, log (EWarning msg_no_method) (snd s))
          /\ warnings es = [msg_no_method] /\ calls es = [])
      /\ (forall method,
             handler i = None ->
             insightsMethod event = Some method -> method <> "" ->
             truthy (param "userToken" (helper_state (snd s))) = false ->
             s' = (fst s, log (EWarning msg_no_user_token) (snd s))
             /\ warnings es = [msg_no_user_token] /\ calls es = [])
      /\ (forall method,
             handler i = None ->
             insightsMethod event = Some method -> method <> "" ->
             truthy (param "userToken" (helper_state (snd s))) = true ->
             s' = invoke i (SendEvent method (payload event)) s
             /\ calls es = [SendEvent method (payload event)]
             /\ warnings es = [] /\ delegations es = [])).
Proof.
  split; [apply started_slot|].
  intros Hslot s' es.
  assert (Hs' : s' = gateway i event s).
  { subst s'. unfold sendEvent. by rewrite Hslot. }
  subst es. rewrite Hs'. clear Hs' s' Hslot.
  split; [destruct (gateway_extends i event s) as [es0 E];
          by apply emitted_suffix with es0|].
  destruct s as [v w]. unfold gateway. cbn [fst snd].
  split; [|split; [|split]].
  - intros h ->. cbn [fst snd]. by rewrite emitted_log.
  - intros -> ->. cbn [fst snd]. unfold warning. by rewrite emitted_log.
  - intros method -> -> Hm%String.eqb_neq ->. rewrite Hm.
    cbn [negb fst snd]. unfold warning. by rewrite emitted_log.
  - intros method -> -> Hm%String.eqb_neq ->. rewrite Hm.
    cbn [negb fst snd]. split; [done|].
    destruct (invoke_emitted i (SendEvent method (payload event)) v w)
      as (rest & -> & Hc & Hw & Hd & _).
    simpl. by rewrite Hc, Hw, Hd.
Qed.

End Gateway.

(** The four cases of the gateway, each right after [started()]: a
    handler; an event without [insightsMethod]; a session without
    [userToken]; a session with one. *)
Lemma gateway_dispatch_witness :
  delegations
    (emitted
       (snd (started handler_settings JUndefined
               (fresh_vars JUndefined JUndefined, world_of tt session_u0)))
       (snd (sendEvent handler_settings click_event
               (started handler_settings JUndefined
                  (fresh_vars JUndefined JUndefined, world_of tt session_u0)))))
  = [(Handler 0, click_event, PropClient)]
  /\ warnings
       (emitted
          (snd (started client_settings JUndefined
                  (fresh_vars JUndefined JUndefined, world_of tt session_u0)))
          (snd (sendEvent client_settings bare_event
                  (started client_settings JUndefined
                     (fresh_vars JUndefined JUndefined, world_of tt session_u0)))))
     = [msg_no_method]
  /\ warnings
       (emitted
          (snd (started client_settings JUndefined
                  (fresh_vars JUndefined JUndefined, world_of tt ∅)))
          (snd (sendEvent client_settings click_event
                  (started client_settings JUndefined
                     (fresh_vars JUndefined JUndefined, world_of tt ∅)))))
     = [msg_no_user_token]
  /\ calls
       (emitted
          (snd (started client_settings JUndefined
                  (fresh_vars JUndefined JUndefined, world_of tt session_u0)))
          (snd (sendEvent client_settings click_event
                  (started client_settings JUndefined
                     (fresh_vars JUndefined JUndefined, world_of tt session_u0)))))
     = [SendEvent "clickedObjectIDs" (JObj 7)].
Proof.
  split; [|split; [|split]].
  - destruct (gateway_dispatch handler_settings click_event
                (started handler_settings JUndefined
                   (fresh_vars JUndefined JUndefined, world_of tt session_u0)))
      as (_ & Hcases).
    destruct (Hcases eq_refl) as (_ & Hhandler & _).
    destruct (Hhandler (Handler 0)) as (_ & Hd & _); [reflexivity|exact Hd].
  - destruct (gateway_dispatch client_settings bare_event
                (started client_settings JUndefined
                   (fresh_vars JUndefined JUndefined, world_of tt session_u0)))
      as (_ & Hcases).
    destruct (Hcases eq_refl) as (_ & _ & Hmethod & _).
    destruct Hmethod as (_ & Hw & _); [reflexivity|reflexivity|exact Hw].
  - destruct (gateway_dispatch client_settings click_event
                (started client_settings JUndefined
                   (fresh_vars JUndefined JUndefined, world_of tt ∅)))
      as (_ & Hcases).
    destruct (Hcases eq_refl) as (_ & _ & _ & Htoken & _).
    destruct (Htoken "clickedObjectIDs") as (_ & Hw & _);
      [reflexivity|reflexivity|discriminate|reflexivity|exact Hw].
  - destruct (gateway_dispatch client_settings click_event
                (started client_settings JUndefined
                   (fresh_vars JUndefined JUndefined, world_of tt session_u0)))
      as (_ & Hcases).
    destruct (Hcases eq_refl) as (_ & _ & _ & _ & Hsend).
    destruct (Hsend "clickedObjectIDs") as (_ & Hc & _);
      [reflexivity|reflexivity|discriminate|reflexivity|exact Hc].
Defined.

(** ** Teardown *)

Section Teardown.

Context {C : Type} `{InsightsClient C}.

Implicit Types (v : Vars) (w : World C) (i : Settings) (es : list Effect).

(** C9.  [unsubscribe()] always calls
    [insightsClient('onUserTokenChange', undefined)], first and once,
    and always leaves [noop] in [sendEventToInsights].  When [helper]
    and [initialParameters] are both set it then writes the snapshot
    back with [setState] and asks for one search.  When one of them is
    missing it writes nothing with [setState] and asks for no search of
    its own: the session is what it was, up to the tokens the client
    may tell a listener while that listener is being removed; before
    the first [started()], when [helper] is unset, there is no listener
    and the session is untouched.  [unsubscribe()] has no failing
    path. *)
Theorem teardown_restores_when_possible i (s : Vars * World C) :
  let s' := unsubscribe i s in
  let es := emitted (snd s) (snd s') in
  let both := is_bound (helper (fst s))
              && bool_decide (is_Some (initialParameters (fst s))) in
  effects (snd s') = effects (snd s) ++ es
  /\ head es = Some (ECall (callee i) unregister)
  /\ calls es = [unregister]
  /\ sendEventToInsights (snd s') = SlotNoop
  /\ (forall p,
         is_bound (helper (fst s)) = true ->
         initialParameters (fst s) = Some p ->
         helper_state (snd s')
         = restore p (told (listened es) (helper_state (snd s)))
         /\ param "userToken" (helper_state (snd s')) = userToken p
         /\ param "clickAnalytics" (helper_state (snd s')) = clickAnalytics p
         /\ notifications es = [helper_state (snd s')]
         /\ searches es = length (listened es) + 1
         /\ last es = Some EScheduleSearch)
  /\ (both = false ->
      helper_state (snd s') = told (listened es) (helper_state (snd s))
      /\ notifications es = []
      /\ searches es = length (listened es))
  /\ (helper (fst s) = None ->
      helper_state (snd s') = helper_state (snd s)
      /\ notifications es = [] /\ overrides es = [] /\ searches es = 0).
Proof.
  destruct s as [v w]. intros s' es both. subst es s' both.
  rewrite unsubscribe_eq. cbn [fst snd helper_state sendEventToInsights effects].
  erewrite emitted_app by reflexivity.
  split; [reflexivity|].
  set (r := reaction i unregister (client w)).
  set (x0 := (userTokenBeforeInit v, helper_state w)).
  destruct (helper v) as [h|] eqn:Eh;
    [destruct (initialParameters v) as [p|] eqn:Ep|];
    cbn [is_bound andb]; set (x := react _ r x0).
  - (* both are set *)
    split; [done|]. split.
    { autorewrite with readers. simpl. subst x. by rewrite react_calls. }
    split; [done|]. split; [|split].
    + intros p' _ [= <-].
      autorewrite with readers. simpl.
      subst x. rewrite react_notifications, react_told, app_nil_r.
      rewrite react_searches_listened.
      set (x := react true r x0).
      repeat split.
      * unfold restore. rewrite param_insert_ne by done. apply param_insert_eq.
      * apply param_insert_eq.
      * rewrite app_comm_cons.
        change [ESetState (restore p (told (listened (fst x)) (snd x0)));
                EScheduleSearch]
          with ([ESetState (restore p (told (listened (fst x)) (snd x0)))]
                  ++ [EScheduleSearch]).
        rewrite app_assoc. apply last_snoc.
    + intros Hb. rewrite bool_decide_eq_false in Hb. destruct Hb. eauto.
    + discriminate.
  - (* no snapshot *)
    rewrite app_nil_r.
    split; [done|]. split.
    { simpl. subst x. by rewrite react_calls. }
    split; [done|]. split; [|split].
    + intros p' _ [=].
    + intros _. simpl. subst x.
      by rewrite react_notifications, react_told, react_searches_listened.
    + discriminate.
  - (* no helper *)
    rewrite app_nil_r.
    destruct (react_unbound r x0) as (Hl & Ho & Hs & Hst). fold x in Hl, Ho, Hs, Hst.
    split; [done|]. split.
    { simpl. subst x. by rewrite react_calls. }
    split; [done|]. split; [|split].
    + intros p' [=].
    + intros _. simpl. rewrite Hl, Hs, Hst. subst x.
      by rewrite react_notifications.
    + intros _. simpl. rewrite Ho, Hs, Hst. subst x.
      by rewrite react_notifications.
Qed.

(** C6.  Once [unsubscribe()] has run, a call of
    [instantSearchInstance.sendEventToInsights(event)] returns normally
    and changes nothing, whatever the event: nothing is called on the
    analytics client, nothing is logged, the session and the variables
    of the middleware stay as they are. *)
Theorem inert_after_unsubscribe i event (s : Vars * World C) :
  sendEventToInsights (snd (unsubscribe i s)) = SlotNoop
  /\ sendEvent i event (unsubscribe i s) = unsubscribe i s
  /\ calls (emitted (snd (unsubscribe i s))
                    (snd (sendEvent i event (unsubscribe i s)))) = [].
Proof.
  destruct s as [v w].
  assert (Hslot : sendEventToInsights (snd (unsubscribe i (v, w))) = SlotNoop)
    by (by rewrite unsubscribe_eq).
  assert (Heq : sendEvent i event (unsubscribe i (v, w)) = unsubscribe i (v, w))
    by (unfold sendEvent; by rewrite Hslot).
  repeat split; [done..|].
  rewrite Heq. unfold emitted. by rewrite drop_all.
Qed.

End Teardown.

(** The teardown after [started()], and before it. *)
Lemma teardown_restores_when_possible_witness :
  param "userToken"
    (helper_state
       (snd (unsubscribe client_settings
               (started client_settings JUndefined
                  (fresh_vars JUndefined (JStr "t"),
                   world_of (loaded_with (JStr "t")) session_u0)))))
  = JStr "u0"
  /\ helper_state
       (snd (unsubscribe client_settings
               (fresh_vars JUndefined (JStr "t"),
                world_of (loaded_with (JStr "t")) session_u0)))
     = session_u0.
Proof.
  split.
  - destruct (teardown_restores_when_possible client_settings
                (started client_settings JUndefined
                   (fresh_vars JUndefined (JStr "t"),
                    world_of (loaded_with (JStr "t")) session_u0)))
      as (_ & _ & _ & _ & Hboth & _).
    destruct (Hboth {| userToken := JStr "u0"; clickAnalytics := JBool false |})
      as (_ & Htoken & _); [reflexivity|reflexivity|exact Htoken].
  - destruct (teardown_restores_when_possible client_settings
                (fresh_vars JUndefined (JStr "t"),
                 world_of (loaded_with (JStr "t")) session_u0))
      as (_ & _ & _ & _ & _ & _ & Hbefore).
    destruct Hbefore as (Hsame & _); [reflexivity|exact Hsame].
Defined.

(** * Further properties *)

(** ** Steps that are no lifecycle hook *)

Section Steps.

Context {C : Type} `{InsightsClient C}.

Implicit Types (v : Vars) (w : World C) (i : Settings) (es : list Effect).
Implicit Types (s : Vars * World C) (st : Step).

Lemma same_but_token_refl s : same_but_token s s.
Proof.
  repeat split; try done.
  - by exists [].
  - exists []. by rewrite app_nil_r.
Qed.

Lemma same_but_token_trans s1 s2 s3 :
  same_but_token s1 s2 -> same_but_token s2 s3 -> same_but_token s1 s3.
Proof.
  intros (Hq & Hh & Hp & Hs & [ts Ht] & [es [He Hn]])
         (Hq' & Hh' & Hp' & Hs' & [ts' Ht'] & [es' [He' Hn']]).
  repeat split; try congruence.
  - exists (ts ++ ts'). by rewrite told_app, <- Ht.
  - exists (es ++ es'). split.
    + by rewrite He', He, app_assoc.
    + by rewrite notifications_app, Hn, Hn'.
Qed.

Lemma invoke_same_but_token i call s : same_but_token s (invoke i call s).
Proof.
  destruct s as [v w]. rewrite invoke_eq.
  repeat split; try done.
  - cbn [snd helper_state]. rewrite react_told. cbn [snd]. eauto.
  - eexists. split; [reflexivity|]. simpl. apply react_notifications.
Qed.

Lemma deliver_same_but_token s cb : same_but_token s (deliver s cb).
Proof.
  destruct s as [v w].
  change (deliver (v, w) cb) with (foldl deliver (v, w) [cb]).
  rewrite foldl_deliver.
  repeat split; try done.
  - cbn [snd helper_state]. rewrite react_told. cbn [snd]. eauto.
  - eexists. split; [reflexivity|]. apply react_notifications.
Qed.

Lemma log_same_but_token v w e :
  notifications [e] = [] -> same_but_token (v, w) (v, log e w).
Proof.
  intros He. repeat split; try done.
  - by exists [].
  - by exists [e].
Qed.

Lemma gateway_same_but_token i event s : same_but_token s (gateway i event s).
Proof.
  destruct s as [v w]. unfold gateway, warning.
  destruct (handler i); [by apply log_same_but_token|].
  destruct (insightsMethod event) as [method|]; [|by apply log_same_but_token].
  destruct (negb (method =? "")%string); [|by apply log_same_but_token].
  destruct (truthy (param "userToken" (helper_state w)));
    [|by apply log_same_but_token].
  apply invoke_same_but_token.
Qed.

Lemma sendEvent_same_but_token i event s :
  same_but_token s (sendEvent i event s).
Proof.
  unfold sendEvent. destruct (sendEventToInsights (snd s)).
  - apply same_but_token_refl.
  - apply gateway_same_but_token.
Qed.

Lemma step_same_but_token i st s :
  is_started st = false -> is_unsubscribe st = false ->
  same_but_token s (step i st s).
Proof.
  destruct st; try discriminate; intros _ _; simpl.
  - apply same_but_token_refl.
  - apply same_but_token_refl.
  - apply sendEvent_same_but_token.
  - apply deliver_same_but_token.
Qed.

Lemma run_app i steps1 steps2 s :
  run i (steps1 ++ steps2) s = run i steps2 (run i steps1 s).
Proof. unfold run. apply foldl_app. Qed.

Lemma run_same_but_token i steps s :
  forallb (fun st => negb (is_started st) && negb (is_unsubscribe st)) steps = true ->
  same_but_token s (run i steps s).
Proof.
  revert s. induction steps as [|st steps IH]; intros s Hsteps.
  - apply same_but_token_refl.
  - simpl in Hsteps. apply andb_true_iff in Hsteps as [Hst Hsteps].
    apply andb_true_iff in Hst as [Hs Hu].
    apply negb_true_iff in Hs, Hu.
    eapply same_but_token_trans; [by apply (step_same_but_token i st)|].
    by apply IH.
Qed.

(** What [started()] leaves behind, whatever the client does. *)
Lemma started_summary i anon s :
  let s' := started i anon s in
  queuedUserToken (fst s') = queuedUserToken (fst s)
  /\ helper (fst s') = Some InstanceHelper
  /\ (exists p, initialParameters (fst s') = Some p)
  /\ sendEventToInsights (snd s') = SlotGateway
  /\ (exists ts ts',
        helper_state (snd s')
        = told ts' (<["clickAnalytics" := JBool true]>
                      (told ts (helper_state (snd s)))))
  /\ (exists es, effects (snd s') = effects (snd s) ++ es
                 /\ notifications es = []).
Proof.
  destruct s as [v w]. intros s'. subst s'. rewrite started_eq.
  cbn [fst snd queuedUserToken helper initialParameters sendEventToInsights
       helper_state effects].
  set (x0 := react _ (reaction i agent (client w)) _).
  set (st1 := <["clickAnalytics" := JBool true]> (snd (snd x0))).
  set (st2 := if hasInsightsClient i && truthy anon
              then <["userToken" := anon]> st1 else st1).
  set (x1 := react true _ (fst (snd x0), st2)).
  set (x2 := react true _ (fst (snd x1), snd (snd x1))).
  split; [done|]. split; [done|]. split; [eauto|]. split; [done|]. split.
  - exists (listened (fst x0)).
    assert (Hst2 : exists ts0, st2 = told ts0 st1).
    { subst st2. destruct (hasInsightsClient i && truthy anon).
      - by exists [anon].
      - by exists []. }
    destruct Hst2 as [ts0 Hst2].
    exists (ts0 ++ listened (fst x1) ++ listened (fst x2)).
    assert (Hx0 : snd (snd x0) = told (listened (fst x0)) (helper_state w)).
    { subst x0. by rewrite (react_told _ _ (userTokenBeforeInit v, helper_state w)). }
    rewrite <- Hx0. fold st1. rewrite !told_app, <- Hst2. subst x2.
    rewrite (react_told true _ (fst (snd x1), snd (snd x1))). cbn [snd].
    subst x1. by rewrite (react_told true _ (fst (snd x0), st2)).
  - eexists. split; [reflexivity|].
    autorewrite with readers. simpl. autorewrite with readers.
    subst x0 x1 x2. rewrite !react_notifications.
    by destruct (hasInsightsClient i && truthy anon), (to_forward _ _).
Qed.

(** What [unsubscribe()] leaves behind, whatever the client does. *)
Lemma unsubscribe_summary i s :
  let s' := unsubscribe i s in
  let both := match helper (fst s), initialParameters (fst s) with
              | Some _, Some _ => true
              | _, _ => false
              end in
  queuedUserToken (fst s') = queuedUserToken (fst s)
  /\ helper (fst s') = helper (fst s)
  /\ initialParameters (fst s') = initialParameters (fst s)
  /\ sendEventToInsights (snd s') = SlotNoop
  /\ (exists ts,
        helper_state (snd s')
        = match helper (fst s), initialParameters (fst s) with
          | Some _, Some p => restore p (told ts (helper_state (snd s)))
          | _, _ => told ts (helper_state (snd s))
          end)
  /\ (exists es, effects (snd s') = effects (snd s) ++ es
                 /\ length (notifications es) = if both then 1 else 0).
Proof.
  destruct s as [v w]. intros s' both. subst s' both. rewrite unsubscribe_eq.
  cbn [fst snd queuedUserToken helper initialParameters sendEventToInsights
       helper_state effects].
  set (x := react _ (reaction i unregister (client w)) _).
  split; [done|]. split; [done|]. split; [done|]. split; [done|]. split.
  - exists (listened (fst x)). subst x.
    rewrite (react_told _ _ (userTokenBeforeInit v, helper_state w)).
    by destruct (helper v), (initialParameters v).
  - eexists. split; [reflexivity|].
    autorewrite with readers. simpl. subst x. rewrite react_notifications.
    by destruct (helper v), (initialParameters v).
Qed.

End Steps.

(** ** Invariants of the hooks *)

Section Invariants.

Context {C : Type} `{InsightsClient C}.

Implicit Types (v : Vars) (w : World C) (i : Settings) (es : list Effect).
Implicit Types (s : Vars * World C) (st : Step).

Lemma step_invariants i st s :
  coherent s ->
  coherent (step i st s)
  /\ queuedUserToken (fst (step i st s)) = queuedUserToken (fst s)
  /\ is_bound (helper (fst (step i st s)))
     = is_bound (helper (fst s)) || is_started st.
Proof.
  intros [Hco Hslot].
  destruct (is_started st) eqn:Es; [|destruct (is_unsubscribe st) eqn:Eu].
  - destruct st; try discriminate. simpl.
    destruct (started_summary i anonymousUserToken s)
      as (Hq & Hh & [p Hp] & Hs & _).
    unfold coherent. rewrite Hh, Hp, Hq, orb_true_r. done.
  - destruct st; try discriminate. simpl.
    destruct (unsubscribe_summary i s) as (Hq & Hh & Hp & Hs & _).
    unfold coherent. rewrite Hh, Hp, Hq, Hs, orb_false_r. done.
  - destruct (step_same_but_token i st s Es Eu) as (Hq & Hh & Hp & Hs & _).
    unfold coherent. rewrite Hh, Hp, Hq, Hs, orb_false_r. done.
Qed.

Lemma run_invariants i steps s :
  coherent s ->
  coherent (run i steps s)
  /\ queuedUserToken (fst (run i steps s)) = queuedUserToken (fst s)
  /\ is_bound (helper (fst (run i steps s)))
     = is_bound (helper (fst s)) || existsb is_started steps.
Proof.
  revert s. induction steps as [|st steps IH]; intros s Hs.
  - simpl. by rewrite orb_false_r.
  - destruct (step_invariants i st s Hs) as (Hc & Hq & Hb).
    destruct (IH _ Hc) as (Hc' & Hq' & Hb').
    change (run i (st :: steps) s) with (run i steps (step i st s)).
    split; [done|]. split; [congruence|].
    rewrite Hb', Hb. simpl. by rewrite orb_assoc.
Qed.

Lemma step_frame i st s k :
  k ≠ "userToken" -> k ≠ "clickAnalytics" ->
  helper_state (snd (step i st s)) !! k = helper_state (snd s) !! k.
Proof.
  intros Hk1 Hk2.
  destruct (is_started st) eqn:Es; [|destruct (is_unsubscribe st) eqn:Eu].
  - destruct st; try discriminate. simpl.
    destruct (started_summary i anonymousUserToken s)
      as (_ & _ & _ & _ & (ts & ts' & ->) & _).
    rewrite told_other by done. rewrite lookup_insert_ne by done.
    by apply told_other.
  - destruct st; try discriminate. simpl.
    destruct (unsubscribe_summary i s) as (_ & _ & _ & _ & [ts ->] & _).
    destruct (helper (fst s)), (initialParameters (fst s));
      unfold restore; rewrite ?lookup_insert_ne by done; by apply told_other.
  - destruct (step_same_but_token i st s Es Eu) as (_ & _ & _ & _ & [ts ->] & _).
    by apply told_other.
Qed.

Lemma step_notifications i st s :
  coherent s ->
  exists es,
    effects (snd (step i st s)) = effects (snd s) ++ es
    /\ length (notifications es)
       = if is_unsubscribe st && is_bound (helper (fst s)) then 1 else 0.
Proof.
  intros [Hco _].
  destruct (is_started st) eqn:Es; [|destruct (is_unsubscribe st) eqn:Eu].
  - destruct st; try discriminate. simpl.
    destruct (started_summary i anonymousUserToken s)
      as (_ & _ & _ & _ & _ & (es & He & Hn)).
    exists es. by rewrite Hn.
  - destruct st; try discriminate. simpl.
    destruct (unsubscribe_summary i s) as (_ & _ & _ & _ & _ & (es & He & Hn)).
    exists es. split; [done|]. rewrite Hn.
    destruct (helper (fst s)), (initialParameters (fst s)); done.
  - destruct (step_same_but_token i st s Es Eu)
      as (_ & _ & _ & _ & _ & (es & He & Hn)).
    exists es. by rewrite Hn.
Qed.

Lemma restores_step (bound : bool) st steps :
  restores bound (st :: steps)
  = (if is_unsubscribe st && bound then 1 else 0)
    + restores (bound || is_started st) steps.
Proof. destruct st, bound; reflexivity. Qed.

(** X2.  Whatever hooks are called, events passed and callbacks run, in
    whatever order, the middleware leaves every search parameter other
    than [userToken] and [clickAnalytics] as it was. *)
Theorem other_parameters_untouched i steps s k :
  k ≠ "userToken" -> k ≠ "clickAnalytics" ->
  helper_state (snd (run i steps s)) !! k = helper_state (snd s) !! k.
Proof.
  intros Hk1 Hk2. revert s. induction steps as [|st steps IH]; intros s; [done|].
  change (run i (st :: steps) s) with (run i steps (step i st s)).
  rewrite IH. by apply step_frame.
Qed.

(** X5.  The session is written with [setState], the write that
    notifies its subscribers, only by an [unsubscribe()] that comes after
    a [started()], and once by each: in any sequence of hooks, events and
    callbacks the number of these writes is the number of such
    [unsubscribe()]. *)
Theorem notifications_only_at_teardown i steps s :
  coherent s ->
  let s' := run i steps s in
  effects (snd s') = effects (snd s) ++ emitted (snd s) (snd s')
  /\ length (notifications (emitted (snd s) (snd s')))
     = restores (is_bound (helper (fst s))) steps.
Proof.
  intros Hs s'. subst s'.
  assert (Hgen : exists es,
    effects (snd (run i steps s)) = effects (snd s) ++ es
    /\ length (notifications es) = restores (is_bound (helper (fst s))) steps).
  { revert s Hs. induction steps as [|st steps IH]; intros s Hs.
    - exists []. by rewrite app_nil_r.
    - change (run i (st :: steps) s) with (run i steps (step i st s)).
      destruct (step_invariants i st s Hs) as (Hc & _ & Hb).
      destruct (step_notifications i st s Hs) as (es1 & He1 & Hn1).
      destruct (IH _ Hc) as (es2 & He2 & Hn2).
      exists (es1 ++ es2). split.
      + by rewrite He2, He1, app_assoc.
      + rewrite notifications_app, length_app, Hn1, Hn2, Hb.
        by rewrite restores_step. }
  destruct Hgen as (es & He & Hn).
  by rewrite (emitted_app _ _ _ He).
Qed.

(** X3.  From [started()] on, and as long as [unsubscribe()] is not
    called, the gateway stays installed and the session keeps
    [clickAnalytics: true], whatever events are passed, callbacks run or
    other hooks called, a second [started()] included. *)
Theorem active_after_started i anon rest s :
  forallb (fun st => negb (is_unsubscribe st)) rest = true ->
  let s' := run i (HookStarted anon :: rest) s in
  sendEventToInsights (snd s') = SlotGateway
  /\ param "clickAnalytics" (helper_state (snd s')) = JBool true
  /\ helper (fst s') = Some InstanceHelper.
Proof.
  intros Hrest s'. subst s'.
  change (run i (HookStarted anon :: rest) s) with (run i rest (started i anon s)).
  assert (Hstart : sendEventToInsights (snd (started i anon s)) = SlotGateway
                   /\ helper_state (snd (started i anon s)) !! "clickAnalytics"
                      = Some (JBool true)
                   /\ helper (fst (started i anon s)) = Some InstanceHelper).
  { destruct (started_summary i anon s) as (_ & Hh & _ & Hs & (ts & ts' & ->) & _).
    split; [done|]. split; [|done].
    rewrite told_clickAnalytics. apply lookup_insert_eq. }
  revert Hstart. generalize (started i anon s). clear s.
  induction rest as [|st rest IH]; intros s (Hs & Hc & Hh).
  - change (run i [] s) with s.
    split; [done|]. split; [|done]. unfold param. by rewrite Hc.
  - simpl in Hrest. apply andb_true_iff in Hrest as [Hst Hrest].
    apply negb_true_iff in Hst.
    change (run i (st :: rest) s) with (run i rest (step i st s)).
    apply IH; [done|].
    destruct (is_started st) eqn:Es.
    + destruct st; try discriminate. simpl.
      destruct (started_summary i anonymousUserToken s)
        as (_ & Hh' & _ & Hs' & (ts & ts' & ->) & _).
      split; [done|]. split; [|done].
      rewrite told_clickAnalytics. apply lookup_insert_eq.
    + destruct (step_same_but_token i st s Es Hst)
        as (_ & Hh' & _ & Hs' & [ts ->] & _).
      split; [congruence|]. split; [|congruence].
      by rewrite told_clickAnalytics.
Qed.

End Invariants.

Section SetupInvariants.

Context {C : Type} `{InsightsClient C}.
Context {SearchClient : Type}.
Variable getAppIdAndApiKey : SearchClient -> jsval * jsval.

Implicit Types (v : Vars) (w : World C) (i : Settings) (f : Factory).
Implicit Types (s : Vars * World C).

Lemma middleware_coherent DEV f sc w i s :
  middleware getAppIdAndApiKey DEV f sc w = inr (i, s) ->
  sendEventToInsights w = SlotNoop ->
  coherent s /\ helper (fst s) = None.
Proof.
  intros E Hw.
  apply middleware_inr in E as (_ & _ & _ & _ & _ & Hh & Hp & _ & Hs & _).
  unfold coherent. rewrite Hh, Hp, Hs, Hw. done.
Qed.

(** X1.  On a middleware set up on an instance whose
    [sendEventToInsights] was still [noop], after any sequence of hooks,
    events and callbacks: [helper] is set exactly when [started()] has
    run at least once (no hook clears it), [initialParameters] is set
    exactly when [helper] is, the gateway is installed only when both
    are, and [queuedUserToken] is still what the set-up read from the
    queue. *)
Theorem variables_set_together DEV f sc w i s steps :
  middleware getAppIdAndApiKey DEV f sc w = inr (i, s) ->
  sendEventToInsights w = SlotNoop ->
  let s' := run i steps s in
  is_bound (helper (fst s')) = existsb is_started steps
  /\ is_bound (helper (fst s'))
     = match initialParameters (fst s') with Some _ => true | None => false end
  /\ (sendEventToInsights (snd s') = SlotGateway ->
      is_bound (helper (fst s')) = true)
  /\ queuedUserToken (fst s') = queuedUserToken (fst s).
Proof.
  intros E Hw s'. subst s'.
  destruct (middleware_coherent _ _ _ _ _ _ E Hw) as [Hco Hh].
  destruct (run_invariants i steps s Hco) as ([Hc1 Hc2] & Hq & Hb).
  rewrite Hh in Hb. by repeat split.
Qed.

Lemma addressed_app es1 es2 :
  addressed (es1 ++ es2) = addressed es1 ++ addressed es2.
Proof.
  induction es1 as [|e es1 IH]; [done|].
  destruct e; simpl; by rewrite ?IH.
Qed.

Lemma react_addressed b r x : addressed (fst (react b r x)) = [].
Proof.
  revert x. induction r as [|[e t|t] r IH]; intros x; simpl; auto.
  destruct b; simpl; auto.
Qed.

(** The two calls of the set-up, with the function they went to, and
    the client they leave. *)
Lemma middleware_addressed DEV f sc w i s :
  middleware getAppIdAndApiKey DEV f sc w = inr (i, s) ->
  let init := Init (fst (getAppIdAndApiKey sc)) (snd (getAppIdAndApiKey sc))
                   (f_initParams f) in
  addressed (emitted w (snd s)) = [(callee i, GetUserToken); (callee i, init)]
  /\ client (snd s) = after i init (after i GetUserToken (client w)).
Proof.
  unfold middleware. destruct (getAppIdAndApiKey sc) as [appId apiKey].
  destruct (DEV && negb (truthy appId && truthy apiKey)); [discriminate|].
  destruct (callable_of (f_insightsClient f)) as [target|]; [|discriminate].
  rewrite !invoke_eq. cbn -[react].
  intros [= <- <-]. cbn -[react].
  split; [|reflexivity].
  erewrite emitted_app.
  2:{ cbn -[react]. rewrite <- app_assoc. reflexivity. }
  cbn -[react]. rewrite addressed_app. cbn -[react].
  by rewrite !react_addressed.
Qed.

(** X10.  When [createInsightsMiddleware(props)({ instantSearchInstance })]
    returns, the variable [insightsClient] holds [noop] if the option
    [insightsClient] is [null] and the client of the caller otherwise,
    and that function has been called twice, with [getUserToken] and
    then with [init], the extracted credentials and the
    [insightsInitParams] of the caller, and nothing else: a client of
    the caller is as these two calls left it, the session and
    [sendEventToInsights] are as before, [helper] and
    [initialParameters] are unset, and the hooks will see the [onEvent]
    and the [insightsClient] of the caller.  In a development build it
    returns only with credentials. *)
Theorem setup_calls_init_only DEV props sc w i s :
  setup getAppIdAndApiKey DEV props sc w = inr (i, s) ->
  let raw := insightsClient (props_or_empty props) in
  let init := Init (fst (getAppIdAndApiKey sc)) (snd (getAppIdAndApiKey sc))
                   (insightsInitParams (props_or_empty props)) in
  calls (emitted w (snd s)) = [GetUserToken; init]
  /\ helper_state (snd s) = helper_state w
  /\ sendEventToInsights (snd s) = sendEventToInsights w
  /\ helper (fst s) = None
  /\ initialParameters (fst s) = None
  /\ handler i = onEvent (props_or_empty props)
  /\ _insightsClient i = raw
  /\ hasInsightsClient i = prop_truthy raw
  /\ (DEV = true -> has_credentials getAppIdAndApiKey sc = true)
  /\ callee i = (if prop_is_null raw then Noop else Client)
  /\ (prop_is_null raw = false -> raw = PropClient)
  /\ addressed (emitted w (snd s)) = [(callee i, GetUserToken); (callee i, init)]
  /\ client (snd s)
     = (if prop_is_null raw then client w
        else fst (client_call init (fst (client_call GetUserToken (client w))))).
Proof.
  intros E raw init.
  unfold setup, createInsightsMiddleware in E. cbn zeta in E.
  match type of E with
  | context [if ?b then _ else _] => destruct b; [discriminate|]
  end.
  assert (Hdev : DEV = true -> has_credentials getAppIdAndApiKey sc = true).
  { intros ->. revert E. unfold middleware, has_credentials.
    destruct (getAppIdAndApiKey sc) as [appId apiKey]. simpl.
    by destruct (truthy appId && truthy apiKey). }
  destruct (middleware_addressed _ _ _ _ _ _ E) as [Haddr Hclient].
  apply middleware_inr in E
    as (Hcallee & Hhas & Hraw & Hon & _ & Hh & Hp & Hst & Hs & Hcalls).
  cbn [f_insightsClient f_initParams f_raw f_onEvent f_hasInsightsClient]
    in *.
  fold raw in Hcallee, Hhas, Hraw. fold init in Hcalls, Haddr, Hclient.
  assert (Hc : callee i = (if prop_is_null raw then Noop else Client)
               /\ (prop_is_null raw = false -> raw = PropClient)).
  { destruct (prop_is_null raw).
    - split; [|done]. simpl in Hcallee. congruence.
    - destruct raw as [value|]; [discriminate|].
      split; [|done]. simpl in Hcallee. congruence. }
  destruct Hc as [Hc Hfn].
  do 9 (split; [done|]). split; [done|]. split; [done|]. split; [done|].
  rewrite Hclient. unfold after. rewrite Hc. by destruct (prop_is_null raw).
Qed.

End SetupInvariants.

(** A set-up on the snippet client, then [started()], an event, a
    callback and [unsubscribe()]. *)
Lemma variables_set_together_witness :
  exists i s,
    middleware credentials_of true client_factory with_credentials
      (world_of queue_a_b session_u0) = inr (i, s)
    /\ is_bound
         (helper
            (fst (run i [HookStarted JUndefined; WidgetEvent click_event;
                         ClientCallback (UserTokenListener (JStr "t"));
                         HookUnsubscribe] s)))
       = true
    /\ queuedUserToken
         (fst (run i [HookStarted JUndefined; WidgetEvent click_event;
                      ClientCallback (UserTokenListener (JStr "t"));
                      HookUnsubscribe] s))
       = JStr "b".
Proof.
  eexists _, _. split; [reflexivity|].
  destruct (variables_set_together credentials_of true client_factory
              with_credentials (world_of queue_a_b session_u0) _ _
              [HookStarted JUndefined; WidgetEvent click_event;
               ClientCallback (UserTokenListener (JStr "t"));
               HookUnsubscribe] eq_refl eq_refl)
    as (Hbound & _ & _ & Hqueued).
  split; [exact Hbound | exact Hqueued].
Defined.

(** A set-up with init parameters on the snippet client: both calls
    are in its queue. *)
Lemma setup_calls_init_only_witness :
  exists i s,
    setup credentials_of true
      (Some {| insightsClient := PropClient;
               insightsInitParams :=
                 Some {| userHasOptedOut := None; useCookie := Some true;
                         cookieDuration := None; region := Some "de" |};
               onEvent := None |})
      with_credentials (world_of queue_a_b session_u0)
    = inr (i, s)
    /\ addressed (emitted (world_of queue_a_b session_u0) (snd s))
       = [(Client, GetUserToken);
          (Client,
           Init (JStr "app") (JStr "key")
                (Some {| userHasOptedOut := None; useCookie := Some true;
                         cookieDuration := None; region := Some "de" |}))]
    /\ client (snd s)
       = queue_a_b ++ [[JStr "getUserToken"; JNull; JObj 0];
                       [JStr "init"; JObj 1]].
Proof.
  eexists _, _. split; [reflexivity|].
  destruct (setup_calls_init_only credentials_of true
              (Some {| insightsClient := PropClient;
                       insightsInitParams :=
                         Some {| userHasOptedOut := None; useCookie := Some true;
                                 cookieDuration := None; region := Some "de" |};
                       onEvent := None |})
              with_credentials (world_of queue_a_b session_u0)
              _ _ eq_refl)
    as (_ & _ & _ & _ & _ & _ & _ & _ & _ & _ & _ & Haddr & Hclient).
  split; [exact Haddr | exact Hclient].
Defined.

(** The steps of one activation with an event, on the loaded client. *)
Lemma notifications_only_at_teardown_witness :
  length
    (notifications
       (emitted (world_of (loaded_with (JStr "t")) session_u0)
          (snd (run client_settings
                  [HookUnsubscribe; HookStarted JUndefined;
                   WidgetEvent click_event; HookUnsubscribe]
                  (fresh_vars JUndefined (JStr "t"),
                   world_of (loaded_with (JStr "t")) session_u0)))))
  = 1.
Proof.
  destruct (notifications_only_at_teardown client_settings
              [HookUnsubscribe; HookStarted JUndefined;
               WidgetEvent click_event; HookUnsubscribe]
              (fresh_vars JUndefined (JStr "t"),
               world_of (loaded_with (JStr "t")) session_u0))
    as [_ Hcount].
  - split; [reflexivity | discriminate].
  - exact Hcount.
Defined.

(** After [started()]: two events, a token from the client and a second
    [started()]. *)
Lemma active_after_started_witness :
  param "clickAnalytics"
    (helper_state
       (snd (run client_settings
               [HookStarted JUndefined; WidgetEvent click_event;
                ClientCallback (UserTokenListener (JStr "later"));
                HookStarted (JStr "anon"); WidgetEvent bare_event]
               (fresh_vars JUndefined (JStr "t"),
                world_of (loaded_with (JStr "t")) session_u0))))
  = JBool true.
Proof.
  destruct (active_after_started client_settings JUndefined
              [WidgetEvent click_event;
               ClientCallback (UserTokenListener (JStr "later"));
               HookStarted (JStr "anon"); WidgetEvent bare_event]
              (fresh_vars JUndefined (JStr "t"),
               world_of (loaded_with (JStr "t")) session_u0) eq_refl)
    as (_ & Hclick & _).
  exact Hclick.
Defined.

(** A parameter of the caller, [query], through an activation. *)
Lemma other_parameters_untouched_witness :
  helper_state
    (snd (run client_settings
            [HookStarted (JStr "anon"); WidgetEvent click_event;
             HookUnsubscribe]
            (fresh_vars JUndefined (JStr "t"),
             world_of (loaded_with (JStr "t"))
               (<["query" := JStr "shoes"]> session_u0))))
    !! "query"
  = Some (JStr "shoes").
Proof.
  rewrite (other_parameters_untouched client_settings
             [HookStarted (JStr "anon"); WidgetEvent click_event;
              HookUnsubscribe]
             (fresh_vars JUndefined (JStr "t"),
              world_of (loaded_with (JStr "t"))
                (<["query" := JStr "shoes"]> session_u0))
             "query"); [reflexivity | discriminate | discriminate].
Defined.

(** ** Edges of the lifecycle *)

Section Edges.

Context {C : Type} `{InsightsClient C}.

Implicit Types (v : Vars) (w : World C) (i : Settings) (es : list Effect).
Implicit Types (s : Vars * World C) (st : Step).

(** The snapshot [started()] takes: the session as the call of
    [addAlgoliaAgent] left it. *)
Lemma started_snapshot i anon s :
  exists ts,
    initialParameters (fst (started i anon s))
    = Some {| userToken := param "userToken" (told ts (helper_state (snd s)));
              clickAnalytics := param "clickAnalytics" (helper_state (snd s)) |}.
Proof.
  destruct s as [v w]. rewrite started_eq. cbn [fst snd initialParameters].
  set (x0 := react _ (reaction i agent (client w)) _).
  exists (listened (fst x0)).
  assert (Hx0 : snd (snd x0) = told (listened (fst x0)) (helper_state w)).
  { subst x0. by rewrite (react_told _ _ (userTokenBeforeInit v, helper_state w)). }
  rewrite Hx0. do 2 f_equal. unfold param. by rewrite told_clickAnalytics.
Qed.

(** X4.  [unsubscribe()] does not disarm the listener it handed out:
    if the client still calls it afterwards, the token is written to the
    session, over the restored one, and a search is requested, while
    [sendEventToInsights] stays [noop]. *)
Theorem listener_outlives_teardown i s token :
  is_bound (helper (fst s)) = true ->
  let s1 := unsubscribe i s in
  let s2 := deliver s1 (UserTokenListener token) in
  param "userToken" (helper_state (snd s2)) = token
  /\ emitted (snd s1) (snd s2)
     = [ECallback (UserTokenListener token);
        EOverrideState (helper_state (snd s2));
        EScheduleSearch]
  /\ sendEventToInsights (snd s2) = SlotNoop.
Proof.
  intros Hb s1 s2.
  destruct (unsubscribe_summary i s) as (_ & Hh & _ & Hs & _).
  fold s1 in Hh, Hs. subst s2. destruct s1 as [v1 w1]. cbn [fst snd] in *.
  rewrite <- Hh in Hb. unfold deliver. destruct (helper v1); [|discriminate].
  cbn [fst snd]. split; [apply param_insert_eq|]. split; [|done].
  apply emitted_app. simpl. by rewrite <- !app_assoc.
Qed.

(** X6.  [unsubscribe()] keeps [helper] and the snapshot.  A second
    [unsubscribe()] therefore writes the same snapshot again with
    [setState] and requests another search, whatever the session has
    become in between. *)
Theorem second_unsubscribe_restores_again i s p (st' : SearchParameters) :
  is_bound (helper (fst s)) = true ->
  initialParameters (fst s) = Some p ->
  let s1 := unsubscribe i s in
  let s1' := (fst s1, with_state st' (snd s1)) in
  let s2 := unsubscribe i s1' in
  initialParameters (fst s1) = Some p
  /\ is_bound (helper (fst s1)) = true
  /\ param "userToken" (helper_state (snd s2)) = userToken p
  /\ param "clickAnalytics" (helper_state (snd s2)) = clickAnalytics p
  /\ notifications (emitted (snd s1') (snd s2)) = [helper_state (snd s2)]
  /\ 1 <= searches (emitted (snd s1') (snd s2)).
Proof.
  intros Hb Hp s1 s1' s2.
  destruct (unsubscribe_summary i s) as (_ & Hh & Hp1 & _).
  fold s1 in Hh, Hp1. rewrite Hp in Hp1. rewrite <- Hh in Hb.
  split; [done|]. split; [done|].
  subst s2 s1'. destruct s1 as [v1 w1]. cbn [fst snd] in *.
  rewrite unsubscribe_eq. cbn [fst snd helper_state effects].
  erewrite emitted_app by reflexivity.
  rewrite Hp1. destruct (helper v1); [|discriminate].
  set (x := react _ _ _).
  split; [|split; [|split]].
  - unfold restore. rewrite param_insert_ne by done. apply param_insert_eq.
  - apply param_insert_eq.
  - autorewrite with readers. simpl. subst x.
    by rewrite react_notifications.
  - autorewrite with readers. simpl. lia.
Qed.

(** X7.  Each [started()] takes a new snapshot.  When [started()] runs
    twice without an [unsubscribe()] in between, the second snapshot has
    the [clickAnalytics: true] of the first run, and the
    [unsubscribe()] that follows leaves [clickAnalytics: true] on the
    session, whatever it was at first. *)
Theorem second_started_forgets_original i anon1 anon2 s :
  let s2 := started i anon2 (started i anon1 s) in
  (exists p, initialParameters (fst s2) = Some p
             /\ clickAnalytics p = JBool true)
  /\ param "clickAnalytics" (helper_state (snd (unsubscribe i s2))) = JBool true.
Proof.
  intros s2.
  destruct (started_summary i anon1 s) as (_ & _ & _ & _ & (ts & ts' & Hst) & _).
  destruct (started_snapshot i anon2 (started i anon1 s)) as [ts2 Hp].
  fold s2 in Hp.
  assert (Hc : param "clickAnalytics" (helper_state (snd (started i anon1 s)))
               = JBool true).
  { rewrite Hst. unfold param. rewrite told_clickAnalytics.
    by rewrite lookup_insert_eq. }
  rewrite Hc in Hp. split; [eauto|].
  destruct (started_summary i anon2 (started i anon1 s)) as (_ & Hh & _).
  fold s2 in Hh.
  destruct (unsubscribe_restore i s2 _ Hh Hp) as [ts3 ->].
  apply param_insert_eq.
Qed.

(** X8.  With a client that tells the listener nothing before its
    calls return (the snippet before the library has loaded, [noop]),
    [started()] leaves on the session [clickAnalytics: true] and, for a
    token, the anonymous one if there is a client and an anonymous
    token, else the one the session had: the token it hands to
    [setUserToken] is not written to the session. *)
Theorem silent_client_session i anon s :
  quiet i ->
  let s' := started i anon s in
  let es := emitted (snd s) (snd s') in
  let st1 := <["clickAnalytics" := JBool true]> (helper_state (snd s)) in
  helper_state (snd s')
  = (if hasInsightsClient i && truthy anon
     then <["userToken" := anon]> st1 else st1)
  /\ param "userToken" (helper_state (snd s'))
     = (if hasInsightsClient i && truthy anon
        then anon else param "userToken" (helper_state (snd s)))
  /\ overrides es
     = st1 :: (if hasInsightsClient i && truthy anon
               then [<["userToken" := anon]> st1] else []).
Proof.
  destruct s as [v w]. intros Hquiet s' es st1. subst es s'.
  cbn [fst snd] in st1.
  rewrite started_eq. cbn [fst snd helper_state effects].
  erewrite emitted_app by reflexivity.
  assert (Hreact : forall b call c x,
    snd (snd (react b (reaction i call c) x)) = snd x
    /\ overrides (fst (react b (reaction i call c) x)) = []).
  { intros b call c x. split.
    - rewrite react_state, Hquiet. by destruct b.
    - apply length_zero_iff_nil. rewrite react_overrides, Hquiet. by destruct b. }
  set (x0 := react _ (reaction i agent (client w)) _).
  assert (Hx0 : snd (snd x0) = helper_state w) by apply Hreact.
  assert (Ho0 : overrides (fst x0) = []) by apply Hreact.
  rewrite Hx0. fold st1.
  set (st2 := if hasInsightsClient i && truthy anon
              then <["userToken" := anon]> st1 else st1).
  assert (Hfwd : forall u,
    snd (snd (react true match to_forward (fst (snd x0)) (queuedUserToken v) with
                         | Some t => reaction i (SetUserToken t) (after i agent (client w))
                         | None => []
                         end (u, st2))) = st2
    /\ overrides (fst (react true match to_forward (fst (snd x0)) (queuedUserToken v) with
                                  | Some t => reaction i (SetUserToken t) (after i agent (client w))
                                  | None => []
                                  end (u, st2))) = []).
  { intros u. destruct (to_forward _ _); [apply Hreact | done]. }
  set (x1 := react true _ (fst (snd x0), st2)).
  destruct (Hfwd (fst (snd x0))) as [Hx1 Ho1]. fold x1 in Hx1, Ho1.
  set (x2 := react true _ (fst (snd x1), snd (snd x1))).
  destruct (Hreact true register
              match to_forward (fst (snd x0)) (queuedUserToken v) with
              | Some t => after i (SetUserToken t) (after i agent (client w))
              | None => after i agent (client w)
              end (fst (snd x1), snd (snd x1))) as [Hx2 Ho2].
  fold x2 in Hx2, Ho2. cbn [snd] in Hx2.
  split; [by rewrite Hx2, Hx1|]. split.
  - rewrite Hx2, Hx1. subst st2.
    destruct (hasInsightsClient i && truthy anon).
    + apply param_insert_eq.
    + subst st1. by rewrite param_insert_ne.
  - autorewrite with readers. simpl. autorewrite with readers.
    rewrite Ho0, Ho1, Ho2. simpl. subst st2.
    destruct (hasInsightsClient i && truthy anon), (to_forward _ _); by simpl.
Qed.

(** X9.  The calls of [started()] on the client, in order: first
    [addAlgoliaAgent], then [setUserToken] once if there is a token to
    hand over ([userTokenBeforeInit] as it stands after the first call,
    else the queued one), last [onUserTokenChange] with the listener and
    [immediate]; nothing else. *)
Theorem started_calls_in_order i anon s :
  let s' := started i anon s in
  let tokenBeforeInit := userTokenBeforeInit (fst (invoke i agent s)) in
  calls (emitted (snd s) (snd s'))
  = agent
      :: match to_forward tokenBeforeInit (queuedUserToken (fst s)) with
         | Some token => [SetUserToken token]
         | None => []
         end
      ++ [register].
Proof.
  destruct s as [v w]. intros s' u.
  assert (Hu : u = fst (snd (react (is_bound (helper v))
                               (reaction i agent (client w))
                               (userTokenBeforeInit v, helper_state w)))).
  { subst u. by rewrite invoke_eq. }
  subst s'. rewrite started_eq. cbn [fst snd effects].
  erewrite emitted_app by reflexivity.
  rewrite <- Hu.
  autorewrite with readers. simpl. autorewrite with readers.
  rewrite !react_calls. simpl.
  destruct (hasInsightsClient i && truthy anon), (to_forward _ _); by simpl.
Qed.

(** X13.  Let [started()] take its snapshot of the session as it finds
    it ([started()] has not run before, or the client tells the listener
    nothing while it handles [addAlgoliaAgent]).  Whatever events are
    passed to the gateway, callbacks run and [subscribe()] or
    [onStateChange()] called before [unsubscribe()], [unsubscribe()]
    puts [userToken] and [clickAnalytics] back as [started()] found them
    and no other parameter has changed. *)
Theorem restored_after_any_activity i anon s steps :
  helper (fst s) = None \/ tokens (reaction i agent (client (snd s))) = [] ->
  forallb (fun st => negb (is_started st) && negb (is_unsubscribe st)) steps = true ->
  let s' := unsubscribe i (run i steps (started i anon s)) in
  forall k, param k (helper_state (snd s')) = param k (helper_state (snd s)).
Proof.
  destruct s as [v w]. intros Hv Hsteps s' k. cbn [fst snd] in Hv |- *.
  destruct (started_fresh i anon v w Hv) as (ts & Hst & Hh & Hp).
  destruct (run_same_but_token i steps (started i anon (v, w)) Hsteps)
    as (_ & Hh' & Hp' & _ & [ts1 Hst1] & _).
  rewrite Hh in Hh'. rewrite Hp in Hp'.
  destruct (unsubscribe_restore i _ _ Hh' Hp') as (ts' & Hs2). fold s' in Hs2.
  rewrite Hs2, Hst1, Hst. unfold restore.
  destruct (decide (k = "clickAnalytics")) as [->|Hk1];
    [apply param_insert_eq|].
  rewrite param_insert_ne by done.
  destruct (decide (k = "userToken")) as [->|Hk2];
    [apply param_insert_eq|].
  rewrite param_insert_ne by done.
  unfold param. rewrite !told_other by done. by rewrite lookup_insert_ne.
Qed.

End Edges.

(** ** Events in the disabled mode *)

Section DisabledEvents.

Context {C : Type} `{InsightsClient C}.
Context {SearchClient : Type}.
Variable getAppIdAndApiKey : SearchClient -> jsval * jsval.

Implicit Types (v : Vars) (w : World C) (i : Settings) (f : Factory).
Implicit Types (s : Vars * World C).

Lemma started_noop_state i anon s :
  callee i = Noop -> hasInsightsClient i = false ->
  helper_state (snd (started i anon s))
  = <["clickAnalytics" := JBool true]> (helper_state (snd s))
  /\ client (snd (started i anon s)) = client (snd s)
  /\ sendEventToInsights (snd (started i anon s)) = SlotGateway.
Proof.
  intros Hc Hh. destruct s as [v w]. rewrite started_eq.
  rewrite !reaction_noop, !after_noop by done. rewrite Hh.
  cbn [fst snd helper_state client sendEventToInsights react andb].
  split; [|split; [|done]].
  - destruct (to_forward _ _); by rewrite ?reaction_noop by done.
  - destruct (to_forward _ _); by rewrite ?after_noop by done.
Qed.

(** X11.  With [insightsClient: null], an event passed to the gateway
    never reaches an analytics client and never changes the session.
    With an [onEvent] of the caller, the handler is given the event and
    [null].  Without one, an event with a method is handed to [noop]
    without a warning when the session has a [userToken] (one the caller
    set: the middleware sets none in this mode), and is dropped with the
    warning about [userToken] otherwise. *)
Theorem disabled_mode_events DEV props sc w i s0 anon event :
  insightsClient (props_or_empty props) = PropValue JNull ->
  setup getAppIdAndApiKey DEV props sc w = inr (i, s0) ->
  let s := started i anon s0 in
  let s' := sendEvent i event s in
  let es := emitted (snd s) (snd s') in
  client (snd s') = client w
  /\ helper_state (snd s') = helper_state (snd s)
  /\ (forall h,
         onEvent (props_or_empty props) = Some h ->
         es = [EOnEvent h event (PropValue JNull)])
  /\ (forall method,
         onEvent (props_or_empty props) = None ->
         insightsMethod event = Some method -> method <> "" ->
         es = if truthy (param "userToken" (helper_state w))
              then [ECall Noop (SendEvent method (payload event))]
              else [EWarning msg_no_user_token]).
Proof.
  intros Hnull Hsetup s s' es.
  unfold setup, createInsightsMiddleware in Hsetup. cbn zeta in Hsetup.
  rewrite Hnull in Hsetup. cbn in Hsetup.
  pose proof Hsetup as Hnoop.
  apply middleware_noop in Hnoop as (Hc & Hh & _ & _ & _ & Hst & Hcl);
    [|reflexivity].
  apply middleware_inr in Hsetup as (_ & _ & Hraw & Hon & _).
  cbn in Hh, Hraw, Hon.
  destruct (started_noop_state i anon s0 Hc Hh) as (Hst1 & Hcl1 & Hslot).
  fold s in Hst1, Hcl1, Hslot.
  assert (Htoken : param "userToken" (helper_state (snd s))
                   = param "userToken" (helper_state w)).
  { rewrite Hst1, Hst. by apply param_insert_ne. }
  assert (Hs' : s' = gateway i event s).
  { subst s'. unfold sendEvent. by rewrite Hslot. }
  subst es. rewrite Hs'. clear Hs' s'.
  destruct s as [v1 w1]. cbn [fst snd] in *.
  unfold gateway, warning. rewrite Hon, Hraw.
  destruct (onEvent (props_or_empty props)) as [h|].
  { cbn [fst snd]. rewrite emitted_log.
    split; [cbn [log client]; congruence|]. split; [done|].
    split; [by intros ? [= ->]|done]. }
  assert (Hinv : forall call,
    invoke i call (v1, w1) = (v1, log (ECall Noop call) w1))
    by (intros call; by rewrite (invoke_noop i call (v1, w1) Hc)).
  split; [|split; [|split; [done|]]].
  - destruct (insightsMethod event) as [method|]; [|by rewrite <- Hcl, <- Hcl1].
    destruct (negb (method =? "")%string); [|by rewrite <- Hcl, <- Hcl1].
    destruct (truthy (param "userToken" (helper_state w1)));
      rewrite ?Hinv; by rewrite <- Hcl, <- Hcl1.
  - destruct (insightsMethod event) as [method|]; [|done].
    destruct (negb (method =? "")%string); [|done].
    destruct (truthy (param "userToken" (helper_state w1)));
      by rewrite ?Hinv.
  - intros method _ -> Hm%String.eqb_neq. rewrite Hm. cbn [negb].
    rewrite Htoken.
    destruct (truthy (param "userToken" (helper_state w)));
      rewrite ?Hinv; cbn [snd]; by rewrite emitted_log.
Qed.

End DisabledEvents.

(** ** The queue scan, entry by entry *)

Lemma find_filter {A} (l : list A) p : find (List.filter p l) p = find l p.
Proof.
  induction l as [|x l IH]; simpl; [done|].
  destruct (p x) eqn:E; simpl; by rewrite ?E.
Qed.

(** X12.  The scan of the queue, entry by entry: an empty queue gives
    [undefined]; a ['setUserToken'] entry pushed last gives its own
    payload, also when that payload is missing or empty (older entries
    are not looked at); any other entry pushed last changes nothing; and
    so only the ['setUserToken'] entries of a queue count. *)
Theorem scan_queue_by_entry :
  scan_queue [] = JUndefined
  /\ (forall queue entry,
         scan_queue (queue ++ [entry])
         = if is_setUserToken entry then nth 1 entry JUndefined
           else scan_queue queue)
  /\ (forall queue,
         scan_queue (List.filter is_setUserToken queue) = scan_queue queue).
Proof.
  split; [done|]. split.
  - intros queue entry. unfold scan_queue. rewrite rev_app_distr. simpl.
    by destruct (is_setUserToken entry).
  - intros queue. unfold scan_queue.
    by rewrite <- List.filter_rev, find_filter.
Qed.

(** ** The edges on the sample clients *)

(** The listener of an activation on the loaded client, called with
    ['late'] after [unsubscribe()]. *)
Lemma listener_outlives_teardown_witness :
  param "userToken"
    (helper_state
       (snd (deliver
               (unsubscribe client_settings
                  (started client_settings JUndefined
                     (fresh_vars JUndefined (JStr "t"),
                      world_of (loaded_with (JStr "t")) session_u0)))
               (UserTokenListener (JStr "late")))))
  = JStr "late".
Proof.
  destruct (listener_outlives_teardown client_settings
              (started client_settings JUndefined
                 (fresh_vars JUndefined (JStr "t"),
                  world_of (loaded_with (JStr "t")) session_u0))
              (JStr "late"))
    as (Htoken & _).
  - reflexivity.
  - exact Htoken.
Defined.

(** Two [unsubscribe()] in a row on the loaded client, the session
    emptied in between. *)
Lemma second_unsubscribe_restores_again_witness :
  param "userToken"
    (helper_state
       (snd (unsubscribe client_settings
               (fst (unsubscribe client_settings
                       (started client_settings JUndefined
                          (fresh_vars JUndefined (JStr "t"),
                           world_of (loaded_with (JStr "t")) session_u0))),
                with_state ∅
                  (snd (unsubscribe client_settings
                          (started client_settings JUndefined
                             (fresh_vars JUndefined (JStr "t"),
                              world_of (loaded_with (JStr "t")) session_u0))))))))
  = JStr "u0".
Proof.
  destruct (second_unsubscribe_restores_again client_settings
              (started client_settings JUndefined
                 (fresh_vars JUndefined (JStr "t"),
                  world_of (loaded_with (JStr "t")) session_u0))
              {| userToken := JStr "u0"; clickAnalytics := JBool false |}
              ∅)
    as (_ & _ & Htoken & _).
  - reflexivity.
  - reflexivity.
  - exact Htoken.
Defined.

(** [started()] on the snippet client with ['b'] queued and an anonymous
    token. *)
Lemma silent_client_session_witness :
  param "userToken"
    (helper_state
       (snd (started client_settings (JStr "anon")
               (fresh_vars (JStr "b") JUndefined,
                world_of queue_a_b session_u0))))
  = JStr "anon".
Proof.
  destruct (silent_client_session client_settings (JStr "anon")
              (fresh_vars (JStr "b") JUndefined,
               world_of queue_a_b session_u0))
    as (_ & Htoken & _).
  - intros call c. reflexivity.
  - exact Htoken.
Defined.

(** A click event in the disabled mode, on a session with the token
    ['u0'] of the caller. *)
Lemma disabled_mode_events_witness :
  exists i s0,
    setup credentials_of true (props_of (PropValue JNull)) with_credentials
      (world_of tt session_u0) = inr (i, s0)
    /\ emitted (snd (started i JUndefined s0))
         (snd (sendEvent i click_event (started i JUndefined s0)))
       = [ECall Noop (SendEvent "clickedObjectIDs" (JObj 7))].
Proof.
  eexists _, _. split; [reflexivity|].
  destruct (disabled_mode_events credentials_of true
              (props_of (PropValue JNull)) with_credentials
              (world_of tt session_u0) _ _ JUndefined click_event
              eq_refl eq_refl)
    as (_ & _ & _ & Hevent).
  exact (Hevent "clickedObjectIDs" eq_refl eq_refl ltac:(discriminate)).
Defined.

(** An activation on the loaded client with an event, a token from the
    client and [subscribe()] before [unsubscribe()]. *)
Lemma restored_after_any_activity_witness :
  param "userToken"
    (helper_state
       (snd (unsubscribe client_settings
               (run client_settings
                  [WidgetEvent click_event;
                   ClientCallback (UserTokenListener (JStr "later"));
                   HookSubscribe]
                  (started client_settings (JStr "anon")
                     (fresh_vars JUndefined (JStr "t"),
                      world_of (loaded_with (JStr "t")) session_u0))))))
  = JStr "u0".
Proof.
  rewrite (restored_after_any_activity client_settings (JStr "anon")
             (fresh_vars JUndefined (JStr "t"),
              world_of (loaded_with (JStr "t")) session_u0)
             [WidgetEvent click_event;
              ClientCallback (UserTokenListener (JStr "later"));
              HookSubscribe]
             (or_introl eq_refl) eq_refl "userToken").
  reflexivity.
Defined.
